(** * LLM response comparison tool: normalisation, escaping and word diff

    A shallow embedding of [src/main.js] ([compareResponses], [callModel],
    [displayResults], [highlightDifferences]) and of [src/utils/helpers.js]
    ([escapeHtml], [displayError]), followed by the properties of the
    specification that concern them.

    Conventions.
    - A JavaScript string is a finite sequence of UTF-16 code units; it is
      modelled as a list of code units, each a natural number ([N]).
    - A decoded JSON body is a JavaScript value; [Value.value] has the JSON
      values plus [undefined], which property access can produce.  A
      Number is an IEEE 754 binary64 value, Rocq's primitive [float]: the
      JSON numbers, the clock readings and the HTTP status.
    - How the engine writes a Number as a string (Number::toString) is a
      parameter, [number_to_string], of everything that converts one.
    - A [throw] is a result in the error monad [Value.result]. *)

From Stdlib Require Import PrimFloat FloatOps SpecFloat.
From Stdlib Require Import String Ascii DecimalString.
From Stdlib Require Import List NArith ZArith Bool Lia.
Import ListNotations.

Set Implicit Arguments.

(* ================================================================= *)
(** ** JavaScript strings *)

Module Js.

Definition code_unit := N.
Definition jsstring := list code_unit.

(** An ASCII literal of the source, as code units. *)
Definition lit (s : string) : jsstring :=
  map N_of_ascii (list_ascii_of_string s).

(** Strict equality [===] of two strings. *)
Fixpoint str_eqb (a b : jsstring) : bool :=
  match a, b with
  | [], [] => true
  | x :: a', y :: b' => N.eqb x y && str_eqb a' b'
  | _, _ => false
  end.

(** [s1 + s2 + ...] on strings. *)
Definition cat (parts : list jsstring) : jsstring := concat parts.

End Js.

(* ================================================================= *)
(** ** The DOM calls of [escapeHtml]

    [escapeHtml] creates a detached [div], assigns its [textContent] and
    reads [innerHTML] back.  The two DOM operations are those of the DOM
    and HTML standards: setting [textContent] replaces the children by a
    single text node (by none when the string is empty), and [innerHTML]
    serialises the children, a text node under a [div] being written
    with its data escaped. *)

Module Dom.
Import Js.

Definition AMP  : code_unit := 38%N.   (* & *)
Definition LT   : code_unit := 60%N.   (* < *)
Definition GT   : code_unit := 62%N.   (* > *)
Definition NBSP : code_unit := 160%N.  (* U+00A0 NO-BREAK SPACE *)
Definition QUOT : code_unit := 34%N.   (* double quote *)
Definition APOS : code_unit := 39%N.   (* single quote *)

(** Replace every occurrence of the code unit [c] in [s] by [by_]. *)
Fixpoint replace_all (c : code_unit) (by_ : jsstring) (s : jsstring)
  : jsstring :=
  match s with
  | [] => []
  | x :: s' => (if N.eqb x c then by_ else [x]) ++ replace_all c by_ s'
  end.

(** HTML fragment serialisation, "escaping a string" outside attribute
    mode: the steps are run one after the other on the whole string. *)
Definition escape_string (s : jsstring) : jsstring :=
  let s1 := replace_all AMP (lit "&amp;") s in
  let s2 := replace_all NBSP (lit "&nbsp;") s1 in
  let s3 := replace_all LT (lit "&lt;") s2 in
  replace_all GT (lit "&gt;") s3.

(** The children a [div] can have here. *)
Inductive node := Text (data : jsstring).

(** [div.textContent = text] on a fresh element. *)
Definition set_textContent (text : jsstring) : list node :=
  match text with
  | [] => []
  | _ => [Text text]
  end.

Definition serialize (n : node) : jsstring :=
  match n with Text data => escape_string data end.

(** [div.innerHTML] *)
Definition innerHTML (children : list node) : jsstring :=
  cat (map serialize children).

End Dom.

(* ================================================================= *)
(** ** [src/utils/helpers.js]: escapeHtml *)

Module Helpers.
Import Js Dom.

Definition escapeHtml (text : jsstring) : jsstring :=
  let div := set_textContent text in
  innerHTML div.

End Helpers.

(* ================================================================= *)
(** ** [String.prototype.split] with the separator [/(\s+)/]

    ECMAScript's [RegExp.prototype[Symbol.split]] walks an index [q]
    through the string, [p] being the end of the previous separator.  At
    each [q] it tries the separator there; [(\s+)] matches exactly when
    the code unit at [q] is white space, and then takes the whole run.
    A match pushes the substring from [p] to [q], then the captured run,
    and moves [p] and [q] behind the run; no match moves [q] one unit on.
    After the loop the substring from [p] to the end is pushed.  The
    empty string, which the separator does not match, gives [[""]].

    [scan_word w s] is the walk with [w] the units between [p] and [q]
    and [s] the units from [q] on; [scan_space r s] is the walk inside a
    greedy match that has taken the run [r] so far. *)

Module Split.
Import Js.

(** The code units matched by [\s]: ECMAScript's WhiteSpace and
    LineTerminator. *)
Local Open Scope N_scope.

Definition is_ws (c : code_unit) : bool :=
  ((9 <=? c) && (c <=? 13))          (* TAB LF VT FF CR *)
  || (c =? 32)                       (* SPACE *)
  || (c =? 160)                      (* NO-BREAK SPACE *)
  || (c =? 5760)                     (* U+1680 *)
  || ((8192 <=? c) && (c <=? 8202))  (* U+2000 .. U+200A *)
  || (c =? 8232) || (c =? 8233)      (* U+2028, U+2029 *)
  || (c =? 8239)                     (* U+202F *)
  || (c =? 8287)                     (* U+205F *)
  || (c =? 12288)                    (* U+3000 *)
  || (c =? 65279)                    (* U+FEFF *).

Fixpoint scan_word (w : jsstring) (s : jsstring) {struct s}
  : list jsstring :=
  match s with
  | [] => [w]
  | c :: s' =>
      if is_ws c then w :: scan_space [c] s'
      else scan_word (w ++ [c]) s'
  end
with scan_space (r : jsstring) (s : jsstring) {struct s}
  : list jsstring :=
  match s with
  | [] => [r; []]
  | c :: s' =>
      if is_ws c then scan_space (r ++ [c]) s'
      else r :: scan_word [c] s'
  end.

(** [text.split(/(\s+)/)] *)
Definition split_ws (text : jsstring) : list jsstring :=
  scan_word [] text.

End Split.

(* ================================================================= *)
(** ** [src/main.js]: highlightDifferences *)

Module Highlight.
Import Js Dom Helpers Split.

Definition removed_open : jsstring :=
  lit "<span class=" ++ [QUOT] ++ lit "diff-removed" ++ [QUOT] ++ lit ">".
Definition added_open : jsstring :=
  lit "<span class=" ++ [QUOT] ++ lit "diff-added" ++ [QUOT] ++ lit ">".
Definition span_close : jsstring := lit "</span>".

(** Truthiness of a string: [if (word1)]. *)
Definition nonempty (s : jsstring) : bool :=
  match s with [] => false | _ => true end.

(** [words[i] || '']: a missing element is [undefined], and both
    [undefined] and the empty string are falsy. *)
Definition word_at (words : list jsstring) (i : nat) : jsstring :=
  match nth_error words i with
  | Some w => if nonempty w then w else lit ""
  | None => lit ""
  end.

(** One turn of the [for] loop, on the pair
    [(highlighted1, highlighted2)]. *)
Definition compare_position (words1 words2 : list jsstring)
    (acc : jsstring * jsstring) (i : nat) : jsstring * jsstring :=
  let '(highlighted1, highlighted2) := acc in
  let word1 := word_at words1 i in
  let word2 := word_at words2 i in
  if negb (str_eqb word1 word2) then
    let highlighted1 :=
      if nonempty word1
      then highlighted1 ++ removed_open ++ escapeHtml word1 ++ span_close
      else highlighted1 in
    let highlighted2 :=
      if nonempty word2
      then highlighted2 ++ added_open ++ escapeHtml word2 ++ span_close
      else highlighted2 in
    (highlighted1, highlighted2)
  else
    (highlighted1 ++ escapeHtml word1, highlighted2 ++ escapeHtml word2).

Definition highlightDifferences (text1 text2 : jsstring)
  : jsstring * jsstring :=
  let words1 := split_ws text1 in
  let words2 := split_ws text2 in
  let maxLength := Nat.max (length words1) (length words2) in
  fold_left (compare_position words1 words2) (seq 0 maxLength)
            (lit "", lit "").

End Highlight.

(* ================================================================= *)
(** ** JavaScript values, exceptions and the operators the parser uses *)

Module Value.
Import Js.

(** What [response.json()] can resolve to, closed under property access
    ([undefined]) and [+]. An object lists its own properties; [lookup]
    reads the first binding of a name. *)
#[warnings="-register-all"]
Inductive value :=
| VUndefined
| VNull
| VBool (b : bool)
| VNum (x : float)
| VStr (s : jsstring)
| VArr (items : list value)
| VObj (fields : list (jsstring * value)).

Inductive exn :=
| Error (message : jsstring)   (* [new Error(message)] *)
| TypeError                    (* property read on [null] or [undefined],
                                  call of something that is no function,
                                  object that converts to no primitive *)
| SyntaxError.                 (* [response.json()] on a body that is no JSON *)

Inductive result (A : Type) :=
| Ok (a : A)
| Throw (e : exn).

Arguments Ok {A} a.
Arguments Throw {A} e.

Definition bind {A B} (m : result A) (k : A -> result B) : result B :=
  match m with
  | Ok a => k a
  | Throw e => Throw e
  end.

Declare Scope js_scope.
Delimit Scope js_scope with js.
Notation "x <- m ;; k" := (bind m (fun x => k))
  (at level 61, m at next level, right associativity) : js_scope.

(** ToBoolean *)
Definition truthy (v : value) : bool :=
  match v with
  | VUndefined | VNull => false
  | VBool b => b
  | VNum x => negb (is_zero x || is_nan x)   (* +0, -0 and NaN are falsy *)
  | VStr s => match s with [] => false | _ => true end
  | VArr _ | VObj _ => true
  end.

Fixpoint lookup (name : jsstring) (fields : list (jsstring * value)) : value :=
  match fields with
  | [] => VUndefined
  | (k, v) :: rest => if str_eqb k name then v else lookup name rest
  end.

(** A property key: an identifier after a dot, or the index in [[0]]. *)
Inductive key :=
| Name (name : jsstring)
| Index (i : nat).

Definition index_name (i : nat) : jsstring :=
  lit (NilZero.string_of_uint (Nat.to_uint i)).

(** [v.name] and [v[i]]. Reading a property of [null] or [undefined]
    throws; numbers, booleans, strings and arrays have none of the names
    the program reads ([choices], [message], [content], [text], [usage]
    and the five token counts), strings and arrays have indices. *)
Definition get (v : value) (k : key) : result value :=
  match v with
  | VUndefined | VNull => Throw TypeError
  | VObj fields =>
      Ok (lookup (match k with Name n => n | Index i => index_name i end)
                 fields)
  | VArr items =>
      match k with
      | Index i => Ok (nth i items VUndefined)
      | Name _ => Ok VUndefined
      end
  | VStr s =>
      match k with
      | Index i =>
          Ok (match nth_error s i with
              | Some c => VStr [c]
              | None => VUndefined
              end)
      | Name _ => Ok VUndefined
      end
  | VBool _ | VNum _ => Ok VUndefined
  end.

(** A chain of reads, [v.a[0].b]: left to right, the first throw ends it. *)
Fixpoint path (v : value) (ks : list key) : result value :=
  match ks with
  | [] => Ok v
  | k :: ks' => bind (get v k) (fun w => path w ks')
  end.

(** [a && b]: [b] is not evaluated, so cannot throw, when [a] is falsy. *)
Definition and_ (a b : result value) : result value :=
  bind a (fun v => if truthy v then b else Ok v).

(** [a || b] *)
Definition or_ (a b : result value) : result value :=
  bind a (fun v => if truthy v then Ok v else b).

(** An own property of that name, whatever its value. *)
Definition has_own (name : jsstring) (fields : list (jsstring * value))
  : bool :=
  existsb (fun kv => str_eqb (fst kv) name) fields.

Section Conversions.

(** Number::toString of the engine. *)
Variable number_to_string : float -> jsstring.

(** ToString.  An array is its elements joined by commas, [null] and
    [undefined] elements as the empty string (Array.prototype.join), the
    first element that throws ending the join.  A decoded object has no
    callable property: with an own [toString] it converts to no
    primitive, which throws; without, Object.prototype.toString gives
    "[object Object]". *)
Fixpoint to_string (v : value) : result jsstring :=
  match v with
  | VUndefined => Ok (lit "undefined")
  | VNull => Ok (lit "null")
  | VBool b => Ok (if b then lit "true" else lit "false")
  | VNum x => Ok (number_to_string x)
  | VStr s => Ok s
  | VArr items =>
      (fix join (first : bool) (l : list value) : result jsstring :=
         match l with
         | [] => Ok []
         | x :: rest =>
             bind (match x with
                   | VUndefined | VNull => Ok (lit "")
                   | _ => to_string x
                   end) (fun next =>
             bind (join false rest) (fun tail_ =>
             Ok ((if first then lit "" else lit ",") ++ next ++ tail_)))
         end) true items
  | VObj fields =>
      if has_own (lit "toString") fields then Throw TypeError
      else Ok (lit "[object Object]")
  end.

(** ToPrimitive: arrays and objects convert through [toString] (their
    [valueOf] gives no primitive). *)
Definition to_primitive (v : value) : result value :=
  match v with
  | VArr _ | VObj _ => bind (to_string v) (fun s => Ok (VStr s))
  | _ => Ok v
  end.

(** ToNumber on the primitives that are no strings. *)
Definition to_number (v : value) : float :=
  match v with
  | VNull => 0%float
  | VBool b => if b then 1%float else 0%float
  | VNum x => x
  | _ => nan
  end.

(** The binary [+]: both operands are made primitive, left first; then
    concatenation when either primitive is a string, addition of doubles
    otherwise. *)
Definition add (a b : value) : result value :=
  bind (to_primitive a) (fun pa =>
  bind (to_primitive b) (fun pb =>
  match pa, pb with
  | VStr x, _ => bind (to_string pb) (fun y => Ok (VStr (x ++ y)))
  | _, VStr y => bind (to_string pa) (fun x => Ok (VStr (x ++ y)))
  | _, _ => Ok (VNum (to_number pa + to_number pb)%float)
  end)).

End Conversions.

End Value.

(* ================================================================= *)
(** ** [src/main.js]: the response parser of callModel

    Everything [callModel] does after [const data = await response.json()]:
    the four [let] defaults, the two guarded branches and the returned
    object.  [responseTime] is computed before and only stored. *)

Module Normalizer.
Import Js Value.
Local Open Scope js_scope.

Record ModelResponse := {
  content : value;
  responseTime : float;
  promptTokens : value;
  completionTokens : value;
  totalTokens : value
}.

Definition choices := Name (lit "choices").
Definition message := Name (lit "message").
Definition content_ := Name (lit "content").
Definition text := Name (lit "text").
Definition usage := Name (lit "usage").
Definition prompt_tokens := Name (lit "prompt_tokens").
Definition completion_tokens := Name (lit "completion_tokens").
Definition total_tokens := Name (lit "total_tokens").
Definition input_tokens := Name (lit "input_tokens").
Definition output_tokens := Name (lit "output_tokens").

Definition unexpected_format : exn :=
  Error (lit "Unexpected response format").

(** [data.choices && data.choices[0] && data.choices[0].message] *)
Definition openai_guard (data : value) : result value :=
  and_ (and_ (path data [choices]) (path data [choices; Index 0]))
       (path data [choices; Index 0; message]).

(** [data.content && data.content[0] && data.content[0].text] *)
Definition anthropic_guard (data : value) : result value :=
  and_ (and_ (path data [content_]) (path data [content_; Index 0]))
       (path data [content_; Index 0; text]).

Section Parser.

(** Number::toString of the engine, which [+] uses when it concatenates. *)
Variable number_to_string : float -> jsstring.

Definition normalize (responseTime : float) (data : value)
  : result ModelResponse :=
  let content := VStr (lit "") in
  let promptTokens := VNum 0 in
  let completionTokens := VNum 0 in
  let totalTokens := VNum 0 in
  a <- openai_guard data ;;
  if truthy a then
    (* OpenAI format *)
    content <- path data [choices; Index 0; message; content_] ;;
    u <- path data [usage] ;;
    if truthy u then
      promptTokens <- or_ (path data [usage; prompt_tokens]) (Ok (VNum 0)) ;;
      completionTokens <-
        or_ (path data [usage; completion_tokens]) (Ok (VNum 0)) ;;
      totalTokens <- or_ (path data [usage; total_tokens]) (Ok (VNum 0)) ;;
      Ok (Build_ModelResponse content responseTime
            promptTokens completionTokens totalTokens)
    else
      Ok (Build_ModelResponse content responseTime
            promptTokens completionTokens totalTokens)
  else
    b <- anthropic_guard data ;;
    if truthy b then
      (* Anthropic format *)
      content <- path data [content_; Index 0; text] ;;
      u <- path data [usage] ;;
      if truthy u then
        promptTokens <- or_ (path data [usage; input_tokens]) (Ok (VNum 0)) ;;
        completionTokens <-
          or_ (path data [usage; output_tokens]) (Ok (VNum 0)) ;;
        totalTokens <- add number_to_string promptTokens completionTokens ;;
        Ok (Build_ModelResponse content responseTime
              promptTokens completionTokens totalTokens)
      else
        Ok (Build_ModelResponse content responseTime
              promptTokens completionTokens totalTokens)
    else
      Throw unexpected_format.

End Parser.

End Normalizer.

(* ================================================================= *)
(** ** [src/main.js] and [src/utils/helpers.js]: the page's actions

    The browser is a trace of the effects the code performs, in order.
    The transport ([fetch] with the two [Date.now()] readings around it),
    the engine's Number::toString, the text an engine gives the message
    of a built-in exception, and which of two failing calls settles first
    are parameters. *)

Module App.
Import Js Value Normalizer Highlight.

Record payload := {
  model : jsstring;
  messages : list (jsstring * jsstring);   (* role, content *)
  max_tokens : Z;
  temperature_tenths : Z                   (* 7 stands for 0.7 *)
}.

Record request := {
  url : jsstring;
  method : jsstring;
  content_type : jsstring;
  authorization : jsstring;
  body : payload                           (* before JSON.stringify *)
}.

Record response := {
  ok : bool;
  status : float;
  statusText : jsstring;
  json : result value                      (* response.json() *)
}.

Inductive event :=
| Alert (msg : jsstring)
| SetDisplay (id : jsstring) (display : jsstring)
| Fetch (r : request)
| SetInnerHTML (id : jsstring) (html : jsstring)
| SetTextContent (id : jsstring) (text : jsstring)
| ConsoleError (e : exn).

Record form := {
  endpoint1 : jsstring;
  endpoint2 : jsstring;
  apikey1 : jsstring;
  apikey2 : jsstring;
  model1 : jsstring;
  model2 : jsstring;
  prompt : jsstring;
  highlightToggle : bool
}.

(** A line of a template literal: the line break, the indentation and
    the text. *)
Definition line (indent : nat) (s : jsstring) : jsstring :=
  [10%N] ++ repeat 32%N indent ++ s.

Definition open_tag (name cls : string) : jsstring :=
  lit "<" ++ lit name ++ lit " class=" ++ [Dom.QUOT] ++ lit cls
  ++ [Dom.QUOT] ++ lit ">".

(** One [metric-item] block of the metrics template. *)
Definition metric_item (label value : jsstring) : jsstring :=
  line 16 (open_tag "div" "metric-item")
  ++ line 20 (open_tag "span" "metric-label" ++ label ++ lit "</span>")
  ++ line 20 (open_tag "span" "metric-value" ++ value ++ lit "</span>")
  ++ line 16 (lit "</div>").

Section Page.

(** Number::toString of the engine. *)
Variable number_to_string : float -> jsstring.
(** [fetch(endpoint, init)]: the milliseconds between the two clock
    readings, [endTime - startTime], and the response or the rejection. *)
Variable transport : request -> float * result response.
(** [error.message] of an exception the engine raised. *)
Variable engine_message : exn -> jsstring.
(** Of two rejected calls, the second rejected first. *)
Variable second_rejects_first : bool.

Definition callModel (endpoint apiKey model prompt : jsstring)
  : list event * result ModelResponse :=
  let payload :=
    {| model := model;
       messages := [(lit "user", prompt)];
       max_tokens := 1000;
       temperature_tenths := 7 |} in
  let req :=
    {| url := endpoint;
       method := lit "POST";
       content_type := lit "application/json";
       authorization := lit "Bearer " ++ apiKey;
       body := payload |} in
  let '(responseTime, fetched) := transport req in
  ([Fetch req],
   bind fetched (fun response =>
     if negb (ok response) then
       Throw (Error (lit "HTTP " ++ number_to_string (status response)
                       ++ lit ": " ++ statusText response))
     else
       bind (json response) (normalize number_to_string responseTime))).

(** [text.split(...)] of [highlightDifferences] needs a string. *)
Definition as_text (v : value) : result jsstring :=
  match v with
  | VStr s => Ok s
  | _ => Throw TypeError
  end.

(** The template literal assigned to a metrics panel.  Its five
    substitutions are converted to strings from left to right; the
    conversion of a count can throw. *)
Definition metrics_markup (modelName : jsstring) (r : ModelResponse)
  : result jsstring :=
  let time := number_to_string (responseTime r) in
  bind (to_string number_to_string (promptTokens r)) (fun prompt_ =>
  bind (to_string number_to_string (completionTokens r)) (fun completion =>
  bind (to_string number_to_string (totalTokens r)) (fun total =>
  Ok (metric_item (lit "Model:") modelName
      ++ metric_item (lit "Response Time:") (time ++ lit "ms")
      ++ metric_item (lit "Prompt Tokens:") prompt_
      ++ metric_item (lit "Completion Tokens:") completion
      ++ metric_item (lit "Total Tokens:") total
      ++ line 12 (lit ""))))).

(** The string the [textContent] setter receives: the empty string for
    [null] and [undefined], ToString otherwise. *)
Definition text_of (v : value) : result jsstring :=
  match v with
  | VUndefined | VNull => Ok (lit "")
  | _ => to_string number_to_string v
  end.

(** The effects performed, and the exception that ended them, if any. *)
Definition displayResults (result1 result2 : ModelResponse)
    (model1Name model2Name : jsstring) (highlightEnabled : bool)
  : list event * option exn :=
  match metrics_markup model1Name result1 with
  | Throw e => ([], Some e)
  | Ok metrics1 =>
  match metrics_markup model2Name result2 with
  | Throw e => ([SetInnerHTML (lit "metrics1") metrics1], Some e)
  | Ok metrics2 =>
  let metrics :=
    [SetInnerHTML (lit "metrics1") metrics1;
     SetInnerHTML (lit "metrics2") metrics2] in
  if highlightEnabled then
    match bind (as_text (content result1)) (fun text1 =>
          bind (as_text (content result2)) (fun text2 =>
          Ok (highlightDifferences text1 text2))) with
    | Ok (highlighted1, highlighted2) =>
        (metrics ++
         [SetInnerHTML (lit "response1") highlighted1;
          SetInnerHTML (lit "response2") highlighted2;
          SetDisplay (lit "results") (lit "block")], None)
    | Throw e => (metrics, Some e)
    end
  else
    match text_of (content result1) with
    | Throw e => (metrics, Some e)
    | Ok text1 =>
    match text_of (content result2) with
    | Throw e =>
        (metrics ++ [SetTextContent (lit "response1") text1], Some e)
    | Ok text2 =>
        (metrics ++
         [SetTextContent (lit "response1") text1;
          SetTextContent (lit "response2") text2;
          SetDisplay (lit "results") (lit "block")], None)
    end
    end
  end
  end.

(** The template literal of [displayError]. *)
Definition error_panel (message : jsstring) : jsstring :=
  line 16 (open_tag "div" "error")
  ++ line 20 (lit "<strong>Error:</strong> " ++ message)
  ++ line 16 (lit "</div>")
  ++ line 12 (lit "").

Definition displayError (message : jsstring) : list event :=
  [SetInnerHTML (lit "metrics1") (lit "");
   SetInnerHTML (lit "metrics2") (lit "");
   SetInnerHTML (lit "response1") (lit "");
   SetInnerHTML (lit "response2") (lit "");
   SetInnerHTML (lit "response1") (error_panel message);
   SetDisplay (lit "results") (lit "block")].

Definition message_of (e : exn) : jsstring :=
  match e with
  | Error m => m
  | _ => engine_message e
  end.

(** The [catch] block. *)
Definition on_error (e : exn) : list event :=
  ConsoleError e
  :: displayError (lit "Error comparing responses: " ++ message_of e).

(** [Promise.all] of the two calls: both values, or the rejection that
    comes first. *)
Definition all_ (r1 r2 : result ModelResponse)
  : result (ModelResponse * ModelResponse) :=
  match r1, r2 with
  | Ok a, Ok b => Ok (a, b)
  | Throw e, Ok _ => Throw e
  | Ok _, Throw e => Throw e
  | Throw e1, Throw e2 => Throw (if second_rejects_first then e2 else e1)
  end.

Definition empty (s : jsstring) : bool := negb (nonempty s).

Definition compareResponses (f : form) : list event :=
  if empty (endpoint1 f) || empty (endpoint2 f)
     || empty (apikey1 f) || empty (apikey2 f)
     || empty (model1 f) || empty (model2 f) || empty (prompt f)
  then
    [Alert (lit "Please fill in all fields")]
  else
    let '(sent1, r1) :=
      callModel (endpoint1 f) (apikey1 f) (model1 f) (prompt f) in
    let '(sent2, r2) :=
      callModel (endpoint2 f) (apikey2 f) (model2 f) (prompt f) in
    [SetDisplay (lit "loading") (lit "block");
     SetDisplay (lit "results") (lit "none")]
    ++ sent1 ++ sent2
    ++ match all_ r1 r2 with
       | Ok (result1, result2) =>
           let '(shown, thrown) :=
             displayResults result1 result2 (model1 f) (model2 f)
                            (highlightToggle f) in
           shown ++ match thrown with
                    | Some e => on_error e
                    | None => []
                    end
       | Throw e => on_error e
       end
    ++ [SetDisplay (lit "loading") (lit "none")].

End Page.

End App.

(* ================================================================= *)
(** * Notions of the specification *)

Import Js Dom Helpers Split Highlight Value Normalizer App.

(** What [escapeHtml] writes for one code unit, as the specification
    describes an escaper: an entity for a markup-significant unit, the
    unit itself otherwise. *)
Definition entity (c : code_unit) : jsstring :=
  if N.eqb c AMP then lit "&amp;"
  else if N.eqb c LT then lit "&lt;"
  else if N.eqb c GT then lit "&gt;"
  else if N.eqb c NBSP then lit "&nbsp;"
  else [c].

(** The escaper of claim C10: three characters only. *)
Definition entity_of_three (c : code_unit) : jsstring :=
  if N.eqb c AMP then lit "&amp;"
  else if N.eqb c LT then lit "&lt;"
  else if N.eqb c GT then lit "&gt;"
  else [c].

(** The units [escapeHtml] rewrites. *)
Definition significant (c : code_unit) : bool :=
  N.eqb c AMP || N.eqb c LT || N.eqb c GT || N.eqb c NBSP.

(** A DiffToken: a run of white space or a run without white space. *)
Definition uniform (t : jsstring) : bool :=
  forallb is_ws t || forallb (fun c => negb (is_ws c)) t.

Fixpoint starts_with (m s : jsstring) : bool :=
  match m, s with
  | [], _ => true
  | x :: m', y :: s' => N.eqb x y && starts_with m' s'
  | _ :: _, [] => false
  end.

(** Stripping the markers from a highlighted output: every occurrence of
    the opening tag of a removed or added span and of the closing tag is
    deleted, reading left to right; [skip] counts the units of a tag
    still to delete. *)
Fixpoint strip_from (skip : nat) (s : jsstring) : jsstring :=
  match s with
  | [] => []
  | c :: s' =>
      match skip with
      | S k => strip_from k s'
      | O =>
          if starts_with removed_open s
          then strip_from (length removed_open - 1) s'
          else if starts_with added_open s
          then strip_from (length added_open - 1) s'
          else if starts_with span_close s
          then strip_from (length span_close - 1) s'
          else c :: strip_from 0 s'
      end
  end.

Definition strip_markers (markup : jsstring) : jsstring :=
  strip_from 0 markup.

(** What one position appends to the first and to the second output. *)
Definition piece1 (words1 words2 : list jsstring) (i : nat) : jsstring :=
  let word1 := word_at words1 i in
  let word2 := word_at words2 i in
  if negb (str_eqb word1 word2) then
    if nonempty word1
    then removed_open ++ escapeHtml word1 ++ span_close
    else []
  else escapeHtml word1.

Definition piece2 (words1 words2 : list jsstring) (i : nat) : jsstring :=
  let word1 := word_at words1 i in
  let word2 := word_at words2 i in
  if negb (str_eqb word1 word2) then
    if nonempty word2
    then added_open ++ escapeHtml word2 ++ span_close
    else []
  else escapeHtml word2.

(** [v.k] as a value: [undefined] where the read would throw. *)
Definition prop (v : value) (k : key) : value :=
  match get v k with
  | Ok w => w
  | Throw _ => VUndefined
  end.

Definition nullish (v : value) : bool :=
  match v with
  | VUndefined | VNull => true
  | _ => false
  end.

(** The guard of the OpenAI branch and of the Anthropic branch. *)
Definition openai_shaped (data : value) : bool :=
  let c := prop data choices in
  truthy c && truthy (prop c (Index 0))
  && truthy (prop (prop c (Index 0)) message).

Definition anthropic_shaped (data : value) : bool :=
  let c := prop data content_ in
  truthy c && truthy (prop c (Index 0))
  && truthy (prop (prop c (Index 0)) text).

(** [usage.k || 0] under [if (usage)], and the default [0] without. *)
Definition count_or_zero (u : value) (k : key) : value :=
  if truthy u
  then (if truthy (prop u k) then prop u k else VNum 0)
  else VNum 0.

(** The parser as a function of the shape of the payload. *)
Definition normalize_by_shape (number_to_string : float -> jsstring)
    (responseTime : float) (data : value) : result ModelResponse :=
  let u := prop data usage in
  if nullish data then Throw TypeError
  else if openai_shaped data then
    Ok {| content :=
            prop (prop (prop (prop data choices) (Index 0)) message) content_;
          responseTime := responseTime;
          promptTokens := count_or_zero u prompt_tokens;
          completionTokens := count_or_zero u completion_tokens;
          totalTokens := count_or_zero u total_tokens |}
  else if anthropic_shaped data then
    bind (add number_to_string (count_or_zero u input_tokens)
              (count_or_zero u output_tokens)) (fun total =>
    Ok {| content := prop (prop (prop data content_) (Index 0)) text;
          responseTime := responseTime;
          promptTokens := count_or_zero u input_tokens;
          completionTokens := count_or_zero u output_tokens;
          totalTokens := total |})
  else Throw unexpected_format.

(** The two shapes, in the words of the specification.  Shape A: a list
    whose first element carries a message object with a [content]
    string.  Shape B: a list whose first element carries a [text]
    string. *)
Definition first_choice_message (raw : value) : option value :=
  match prop raw choices with
  | VArr (first :: _) =>
      match prop first message with
      | VObj m => Some (VObj m)
      | _ => None
      end
  | _ => None
  end.

Definition matches_shape_A (raw : value) : bool :=
  match first_choice_message raw with
  | Some m => match prop m content_ with VStr _ => true | _ => false end
  | None => false
  end.

Definition first_block_text (raw : value) : option jsstring :=
  match prop raw content_ with
  | VArr (first :: _) =>
      match prop first text with
      | VStr t => Some t
      | _ => None
      end
  | _ => None
  end.

Definition matches_shape_B (raw : value) : bool :=
  match first_block_text raw with Some _ => true | None => false end.

(** The total the upstream usage object supplies, if it has one. *)
Definition supplied_total (raw : value) : option value :=
  match prop (prop raw usage) total_tokens with
  | VUndefined => None
  | v => Some v
  end.

(** The invariant of ModelResponse in the data model. *)
Definition total_invariant (number_to_string : float -> jsstring)
    (raw : value) (r : ModelResponse) : Prop :=
  supplied_total raw = Some (totalTokens r)
  \/ add number_to_string (promptTokens r) (completionTokens r)
     = Ok (totalTokens r).

(** The integer a double is, if it is one: a finite double is
    [m * 2^e], signed. *)
Definition integer_value (x : float) : option Z :=
  match Prim2SF x with
  | S754_zero _ => Some 0%Z
  | S754_finite negative m e =>
      let magnitude :=
        if (0 <=? e)%Z
        then Some (Z.pos m * 2 ^ e)%Z
        else if (Z.pos m mod 2 ^ (- e) =? 0)%Z
             then Some (Z.pos m / 2 ^ (- e))%Z
             else None in
      match magnitude with
      | Some z => Some (if negative then (- z)%Z else z)
      | None => None
      end
  | _ => None
  end.

Definition nonneg_int (v : value) : bool :=
  match v with
  | VNum x =>
      match integer_value x with
      | Some z => (0 <=? z)%Z
      | None => false
      end
  | _ => false
  end.

(** A value that ToString converts without throwing: no object with an
    own [toString], and no array that holds one in an element that is
    converted. *)
Fixpoint stringable (v : value) : bool :=
  match v with
  | VArr items => forallb stringable items
  | VObj fields => negb (has_own (lit "toString") fields)
  | _ => true
  end.

(** A Number::toString for the examples.  It is the engine's on the
    integers of magnitude up to 2^53, which are written with all their
    digits; elsewhere it is a placeholder, and no statement depends on it
    there. *)
Definition example_engine (x : float) : jsstring :=
  match integer_value x with
  | Some z =>
      if (Z.abs z <=? 2 ^ 53)%Z
      then lit (NilZero.string_of_int (Z.to_int z))
      else lit "?"
  | None => lit "?"
  end.

(** A token count of the usage object that is absent or a non-negative
    integer. *)
Definition count_ok (v : value) : Prop :=
  v = VUndefined \/ nonneg_int v = true.

Definition obj (fields : list (string * value)) : value :=
  VObj (map (fun '(k, v) => (lit k, v)) fields).

Definition str (s : string) : value := VStr (lit s).

(** The two examples of the specification. *)
Definition openai_example : value :=
  obj [("choices", VArr [obj [("message", obj [("content", str "hi")])]]);
       ("usage", obj [("prompt_tokens", VNum 3);
                      ("completion_tokens", VNum 2);
                      ("total_tokens", VNum 5)])]%string.

Definition anthropic_example : value :=
  obj [("content", VArr [obj [("text", str "hi")]]);
       ("usage", obj [("input_tokens", VNum 3);
                      ("output_tokens", VNum 2)])]%string.

(** [{choices:[{message:{content:"hi"}}],
      usage:{prompt_tokens:3, completion_tokens:2}}] *)
Definition openai_without_total : value :=
  obj [("choices", VArr [obj [("message", obj [("content", str "hi")])]]);
       ("usage", obj [("prompt_tokens", VNum 3);
                      ("completion_tokens", VNum 2)])]%string.

(** [{choices:[{message:{content:"hi"}}], usage:{prompt_tokens:-5}}] *)
Definition openai_negative_count : value :=
  obj [("choices", VArr [obj [("message", obj [("content", str "hi")])]]);
       ("usage", obj [("prompt_tokens", VNum (-5))])]%string.

(** [{content:[{text:''}]}]: a first block with the empty text. *)
Definition anthropic_empty_text : value :=
  obj [("content", VArr [obj [("text", str "")]])]%string.

(** [{choices:[{message:{content:null}}]}] *)
Definition openai_null_content : value :=
  obj [("choices", VArr [obj [("message", obj [("content", VNull)])]])]%string.

(** Both shapes at once, the usage object with the names of both. *)
Definition both_shapes : value :=
  obj [("choices", VArr [obj [("message", obj [("content", str "A")])]]);
       ("content", VArr [obj [("text", str "B")]]);
       ("usage", obj [("prompt_tokens", VNum 3);
                      ("completion_tokens", VNum 2);
                      ("total_tokens", VNum 5);
                      ("input_tokens", VNum 70);
                      ("output_tokens", VNum 80)])]%string.

(** The token counts the parser reads. *)
Definition count_names : list key :=
  [prompt_tokens; completion_tokens; total_tokens;
   input_tokens; output_tokens].

(** The result of the OpenAI branch: a function of [choices] and of the
    three standard counts of the usage object. *)
Definition openai_result (rt : float) (raw : value) : ModelResponse :=
  {| content :=
       prop (prop (prop (prop raw choices) (Index 0)) message) content_;
     responseTime := rt;
     promptTokens := count_or_zero (prop raw usage) prompt_tokens;
     completionTokens := count_or_zero (prop raw usage) completion_tokens;
     totalTokens := count_or_zero (prop raw usage) total_tokens |}.

(** Two payloads with the same [choices] and the same standard counts. *)
Definition same_openai_fields (raw raw' : value) : Prop :=
  prop raw' choices = prop raw choices
  /\ truthy (prop raw' usage) = truthy (prop raw usage)
  /\ forall k, In k [prompt_tokens; completion_tokens; total_tokens] ->
               prop (prop raw' usage) k = prop (prop raw usage) k.

(** The requests a trace issues, in order. *)
Definition requests (trace : list event) : list request :=
  flat_map (fun e => match e with Fetch r => [r] | _ => [] end) trace.

(** The request [callModel] builds. *)
Definition request_of (endpoint apiKey model_ prompt_ : jsstring) : request :=
  {| url := endpoint;
     method := lit "POST";
     content_type := lit "application/json";
     authorization := lit "Bearer " ++ apiKey;
     body := {| model := model_;
                messages := [(lit "user", prompt_)];
                max_tokens := 1000;
                temperature_tenths := 7 |} |}.

(** A transport that answers nothing useful, and a form with no prompt. *)
Definition refusing_transport (_ : request) : float * result response :=
  (0%float, Throw (Error (lit "Failed to fetch"))).

Definition form_without_prompt : form :=
  {| endpoint1 := lit "https://a.example/v1";
     endpoint2 := lit "https://b.example/v1";
     apikey1 := lit "k1";
     apikey2 := lit "k2";
     model1 := lit "m1";
     model2 := lit "m2";
     prompt := lit "";
     highlightToggle := true |}.

(** Reading an escaped text back: each of the four entities gives its
    character, any other unit is copied; [skip] counts the units of an
    entity still to pass over. *)
Fixpoint unescape_from (skip : nat) (s : jsstring) : jsstring :=
  match s with
  | [] => []
  | c :: s' =>
      match skip with
      | S k => unescape_from k s'
      | O =>
          if starts_with (lit "&amp;") s then AMP :: unescape_from 4 s'
          else if starts_with (lit "&lt;") s then LT :: unescape_from 3 s'
          else if starts_with (lit "&gt;") s then GT :: unescape_from 3 s'
          else if starts_with (lit "&nbsp;") s then NBSP :: unescape_from 5 s'
          else c :: unescape_from 0 s'
      end
  end.

Definition unescape (escaped : jsstring) : jsstring :=
  unescape_from 0 escaped.

(** A text that holds none of [<], [>] and U+00A0. *)
Definition markup_safe (s : jsstring) : bool :=
  forallb (fun c => negb (N.eqb c LT || N.eqb c GT || N.eqb c NBSP)) s.

(** A text that holds no [<], so no tag. *)
Definition tag_free (s : jsstring) : bool :=
  forallb (fun c => negb (N.eqb c LT)) s.

Definition no_ws (t : jsstring) : bool :=
  forallb (fun c => negb (is_ws c)) t.

Definition all_ws (t : jsstring) : bool := forallb is_ws t.

(** The form of a token list that starts with a word token: word tokens
    and white-space runs alternate, the list ends with a word token, a
    run is never empty, and a word token is empty only as the first or
    the last of the list. *)
Fixpoint tokens_ok (first : bool) (tokens : list jsstring) : bool :=
  match tokens with
  | [] => false
  | [w] => no_ws w
  | w :: r :: rest =>
      no_ws w && (first || nonempty w)
      && nonempty r && all_ws r && tokens_ok false rest
  end.

(** A token of the one text shown against nothing: wrapped when it is not
    empty. *)
Definition marked (open_tag : jsstring) (w : jsstring) : jsstring :=
  if nonempty w then open_tag ++ escapeHtml w ++ span_close else [].

(** The seven required fields are filled in. *)
Definition filled (f : form) : bool :=
  nonempty (endpoint1 f) && nonempty (endpoint2 f)
  && nonempty (apikey1 f) && nonempty (apikey2 f)
  && nonempty (model1 f) && nonempty (model2 f) && nonempty (prompt f).

(** What a panel of the page holds. *)
Inductive panel :=
| Html (markup : jsstring)
| PlainText (text : jsstring).

Definition writes (id : jsstring) (e : event) : option panel :=
  match e with
  | SetInnerHTML i h => if str_eqb i id then Some (Html h) else None
  | SetTextContent i t => if str_eqb i id then Some (PlainText t) else None
  | _ => None
  end.

(** The content of the panel [id] after a trace: its last write. *)
Fixpoint panel_after (id : jsstring) (trace : list event) : option panel :=
  match trace with
  | [] => None
  | e :: rest =>
      match panel_after id rest with
      | Some c => Some c
      | None => writes id e
      end
  end.

(** The [style.display] of the element [id] after a trace. *)
Fixpoint display_after (id : jsstring) (trace : list event)
  : option jsstring :=
  match trace with
  | [] => None
  | e :: rest =>
      match display_after id rest with
      | Some d => Some d
      | None =>
          match e with
          | SetDisplay i d => if str_eqb i id then Some d else None
          | _ => None
          end
      end
  end.

(** The panels after [displayError message]. *)
Definition error_shown (message_ : jsstring) (trace : list event) : Prop :=
  panel_after (lit "metrics1") trace = Some (Html (lit ""))
  /\ panel_after (lit "metrics2") trace = Some (Html (lit ""))
  /\ panel_after (lit "response1") trace = Some (Html (error_panel message_))
  /\ panel_after (lit "response2") trace = Some (Html (lit ""))
  /\ display_after (lit "results") trace = Some (lit "block").

(** What [compareResponses] does once both calls have settled: the body
    of [try] after the [await], and the [catch] block. *)
Definition settled (number_to_string : float -> jsstring)
    (engine_message : exn -> jsstring) (f : form)
    (both : result (ModelResponse * ModelResponse)) : list event :=
  match both with
  | Ok (result1, result2) =>
      let '(shown, thrown) :=
        displayResults number_to_string result1 result2
                       (model1 f) (model2 f) (highlightToggle f) in
      shown ++ match thrown with
               | Some e => on_error engine_message e
               | None => []
               end
  | Throw e => on_error engine_message e
  end.

(** The prefix "Error comparing responses: " of the [catch] block. *)
Definition comparing (engine_message : exn -> jsstring) (e : exn)
  : jsstring :=
  lit "Error comparing responses: " ++ message_of engine_message e.

(** The outcome of the Anthropic branch: a function of [content] and of
    the counts [input_tokens] and [output_tokens], the sum of which can
    throw. *)
Definition anthropic_result (number_to_string : float -> jsstring)
    (rt : float) (raw : value) : result ModelResponse :=
  bind (add number_to_string
            (count_or_zero (prop raw usage) input_tokens)
            (count_or_zero (prop raw usage) output_tokens)) (fun total =>
  Ok {| content := prop (prop (prop raw content_) (Index 0)) text;
        responseTime := rt;
        promptTokens := count_or_zero (prop raw usage) input_tokens;
        completionTokens := count_or_zero (prop raw usage) output_tokens;
        totalTokens := total |}).

(** The two counts of the Anthropic branch can be added: neither
    converts to a primitive by throwing. *)
Definition counts_addable (raw : value) : bool :=
  stringable (count_or_zero (prop raw usage) input_tokens)
  && stringable (count_or_zero (prop raw usage) output_tokens).

(** The usage object gives [input_tokens] an object with an own
    [toString], which [+] cannot convert. *)
Definition anthropic_unaddable : value :=
  obj [("content", VArr [obj [("text", str "hi")]]);
       ("usage", obj [("input_tokens", obj [("toString", VNum 1)]);
                      ("output_tokens", VNum 2)])]%string.

(** The Anthropic example without its usage object. *)
Definition anthropic_without_usage : value :=
  obj [("content", VArr [obj [("text", str "hi")]])]%string.

(** A transport that answers every request with the same response. *)
Definition constant_transport (elapsed : float) (r : response)
    (_ : request) : float * result response :=
  (elapsed, Ok r).

Definition ok_response (data : value) : response :=
  {| ok := true; status := 200; statusText := lit "OK"; json := Ok data |}.

Definition server_error : response :=
  {| ok := false; status := 500; statusText := lit "Internal Server Error";
     json := Throw SyntaxError |}.

Definition filled_form (highlight : bool) : form :=
  {| endpoint1 := lit "https://a.example/v1";
     endpoint2 := lit "https://b.example/v1";
     apikey1 := lit "k1";
     apikey2 := lit "k2";
     model1 := lit "m1";
     model2 := lit "m2";
     prompt := lit "hello";
     highlightToggle := highlight |}.

(** The Anthropic example with a total the upstream adds. *)
Definition anthropic_with_total : value :=
  obj [("content", VArr [obj [("text", str "hi")]]);
       ("usage", obj [("input_tokens", VNum 3);
                      ("output_tokens", VNum 2);
                      ("total_tokens", VNum 99)])]%string.

(** The outcome of the first and of the second [callModel] of
    [compareResponses]. *)
Definition first_call (number_to_string : float -> jsstring)
    (transport : request -> float * result response)
    (f : form) : result ModelResponse :=
  snd (callModel number_to_string transport
         (endpoint1 f) (apikey1 f) (model1 f) (prompt f)).

Definition second_call (number_to_string : float -> jsstring)
    (transport : request -> float * result response)
    (f : form) : result ModelResponse :=
  snd (callModel number_to_string transport
         (endpoint2 f) (apikey2 f) (model2 f) (prompt f)).

Definition is_string (v : value) : bool :=
  match v with VStr _ => true | _ => false end.

(** The events every comparison with filled fields starts with. *)
Definition opening (f : form) : list event :=
  [SetDisplay (lit "loading") (lit "block");
   SetDisplay (lit "results") (lit "none");
   Fetch (request_of (endpoint1 f) (apikey1 f) (model1 f) (prompt f));
   Fetch (request_of (endpoint2 f) (apikey2 f) (model2 f) (prompt f))].

(** The trace of a comparison that ends in the [catch] block before
    anything of a result is written. *)
Definition failure_trace (engine_message : exn -> jsstring) (f : form)
    (e : exn) : list event :=
  opening f
  ++ [ConsoleError e]
  ++ displayError (lit "Error comparing responses: "
                   ++ message_of engine_message e)
  ++ [SetDisplay (lit "loading") (lit "none")].

(** A transport whose first endpoint answers 500 and whose second answers
    the OpenAI example. *)
Definition half_failing_transport (r : request)
  : float * result response :=
  if str_eqb (url r) (lit "https://a.example/v1")
  then (30%float, Ok server_error)
  else (40%float, Ok (ok_response openai_example)).

(** The record both examples of the specification give. *)
Definition example_record (rt : float) : ModelResponse :=
  {| content := str "hi"; responseTime := rt;
     promptTokens := VNum 3; completionTokens := VNum 2;
     totalTokens := VNum 5 |}.

(** The record of [{choices:[{message:{content:null}}]}]. *)
Definition null_content_record (rt : float) : ModelResponse :=
  {| content := VNull; responseTime := rt;
     promptTokens := VNum 0; completionTokens := VNum 0;
     totalTokens := VNum 0 |}.

(** An engine that gives its exceptions no message. *)
Definition silent_engine (_ : exn) : jsstring := lit "".

(** The join of [to_string] on an array, by name. *)
Fixpoint join_elements (number_to_string : float -> jsstring)
    (first : bool) (l : list value) : result jsstring :=
  match l with
  | [] => Ok []
  | x :: rest =>
      bind (match x with
            | VUndefined | VNull => Ok (lit "")
            | _ => to_string number_to_string x
            end) (fun next =>
      bind (join_elements number_to_string false rest) (fun tail_ =>
      Ok ((if first then lit "" else lit ",") ++ next ++ tail_)))
  end.

(** Two payloads with the same fields read by the Anthropic branch. *)
Definition same_anthropic_fields (raw raw' : value) : Prop :=
  prop raw' content_ = prop raw content_
  /\ truthy (prop raw' usage) = truthy (prop raw usage)
  /\ forall k, In k [input_tokens; output_tokens] ->
               prop (prop raw' usage) k = prop (prop raw usage) k.

(** The markup of a template literal that was built. *)
Definition markup_of (built : result jsstring) : jsstring :=
  match built with
  | Ok markup => markup
  | Throw _ => lit ""
  end.

(** The OpenAI example with a [prompt_tokens] that is an object with an
    own [toString]: stored as it is, it cannot be written. *)
Definition openai_unprintable_count : value :=
  obj [("choices", VArr [obj [("message", obj [("content", str "hi")])]]);
       ("usage", obj [("prompt_tokens", obj [("toString", VNum 1)])])]%string.

Definition unprintable_record (rt : float) : ModelResponse :=
  {| content := str "hi"; responseTime := rt;
     promptTokens := obj [("toString", VNum 1)]%string;
     completionTokens := VNum 0;
     totalTokens := VNum 0 |}.

(* ================================================================= *)
(** * Properties *)

(* ----------------------------------------------------------------- *)
(** ** Escaper *)

Lemma replace_all_flat_map (c : code_unit) (by_ s : jsstring) :
  replace_all c by_ s = flat_map (fun x => if N.eqb x c then by_ else [x]) s.
Proof.
  induction s as [|x s IH]; simpl; [reflexivity|].
  now rewrite IH.
Qed.

Lemma flat_map_compose {A B C} (f : A -> list B) (g : B -> list C) l :
  flat_map g (flat_map f l) = flat_map (fun x => flat_map g (f x)) l.
Proof.
  induction l as [|x l IH]; simpl; [reflexivity|].
  now rewrite flat_map_app, IH.
Qed.

Lemma escape_string_entity (s : jsstring) :
  escape_string s = flat_map entity s.
Proof.
  unfold escape_string.
  rewrite !replace_all_flat_map, !flat_map_compose.
  apply flat_map_ext. intro x. unfold entity.
  destruct (N.eqb_spec x AMP) as [->|Hamp]; [reflexivity|].
  destruct (N.eqb_spec x LT) as [->|Hlt]; [reflexivity|].
  destruct (N.eqb_spec x GT) as [->|Hgt]; [reflexivity|].
  destruct (N.eqb_spec x NBSP) as [->|Hnb]; [reflexivity|].
  simpl.
  apply N.eqb_neq in Hnb, Hlt, Hgt.
  rewrite Hnb. simpl. rewrite Hlt. simpl. rewrite Hgt. reflexivity.
Qed.

Lemma escapeHtml_escape_string (s : jsstring) :
  escapeHtml s = escape_string s.
Proof.
  destruct s as [|c s]; [reflexivity|].
  unfold escapeHtml, set_textContent, innerHTML, cat. simpl.
  apply app_nil_r.
Qed.

Lemma escapeHtml_entity (s : jsstring) : escapeHtml s = flat_map entity s.
Proof. now rewrite escapeHtml_escape_string, escape_string_entity. Qed.

Lemma escapeHtml_app (s t : jsstring) :
  escapeHtml (s ++ t) = escapeHtml s ++ escapeHtml t.
Proof. rewrite !escapeHtml_entity. apply flat_map_app. Qed.

Lemma entity_plain (c : code_unit) : significant c = false -> entity c = [c].
Proof.
  unfold significant, entity. intro H.
  repeat (apply orb_false_elim in H; destruct H as [H ?]).
  now rewrite H, H0, H1, H2.
Qed.

Lemma entity_significant_long (c : code_unit) :
  significant c = true -> (1 < length (entity c))%nat.
Proof.
  unfold significant, entity. intro H.
  destruct (N.eqb c AMP); [simpl; lia|].
  destruct (N.eqb c LT); [simpl; lia|].
  destruct (N.eqb c GT); [simpl; lia|].
  destruct (N.eqb c NBSP); [simpl; lia|discriminate].
Qed.

Lemma entity_head (c : code_unit) :
  significant c = true -> exists rest, entity c = AMP :: rest.
Proof.
  unfold significant, entity. intro H.
  destruct (N.eqb c AMP); [eexists; reflexivity|].
  destruct (N.eqb c LT); [eexists; reflexivity|].
  destruct (N.eqb c GT); [eexists; reflexivity|].
  destruct (N.eqb c NBSP); [eexists; reflexivity|discriminate].
Qed.

Lemma flat_map_entity_length (s : jsstring) :
  (length s <= length (flat_map entity s))%nat.
Proof.
  induction s as [|c s IH]; simpl; [lia|].
  rewrite length_app.
  destruct (significant c) eqn:E.
  - apply entity_significant_long in E. lia.
  - rewrite (entity_plain _ E). simpl. lia.
Qed.

Lemma flat_map_entity_plain (s : jsstring) :
  forallb (fun c => negb (significant c)) s = true ->
  flat_map entity s = s.
Proof.
  induction s as [|c s IH]; simpl; [reflexivity|].
  intro H. apply andb_true_iff in H. destruct H as [Hc Hs].
  apply negb_true_iff in Hc.
  now rewrite (entity_plain _ Hc), IH.
Qed.

Lemma flat_map_entity_longer (s : jsstring) :
  forallb (fun c => negb (significant c)) s = false ->
  (length s < length (flat_map entity s))%nat.
Proof.
  induction s as [|c s IH]; simpl; [discriminate|].
  intro H. rewrite length_app.
  pose proof (flat_map_entity_length s) as Hle.
  destruct (significant c) eqn:E.
  - apply entity_significant_long in E. lia.
  - simpl in H. apply IH in H. rewrite (entity_plain _ E). simpl. lia.
Qed.

Lemma flat_map_entity_keeps_significant (s : jsstring) :
  forallb (fun c => negb (significant c)) s = false ->
  forallb (fun c => negb (significant c)) (flat_map entity s) = false.
Proof.
  induction s as [|c s IH]; simpl; [discriminate|].
  intro H. rewrite forallb_app.
  destruct (significant c) eqn:E.
  - destruct (entity_head _ E) as [rest ->]. reflexivity.
  - simpl in H. rewrite (entity_plain _ E). simpl. rewrite E. simpl. auto.
Qed.

Lemma escapeHtml_plain (T : jsstring) :
  forallb (fun c => negb (significant c)) T = true -> escapeHtml T = T.
Proof. intro H. rewrite escapeHtml_entity. now apply flat_map_entity_plain. Qed.

(** C4 (as amended). Escaping twice gives the same as escaping once exactly
    for the texts that contain none of [&], [<], [>] and U+00A0; those
    texts are left unchanged by [escapeHtml]. For any other text the
    second pass rewrites the [&] of the entities the first pass wrote. *)
Theorem escapeHtml_twice_iff_plain (T : jsstring) :
  (escapeHtml (escapeHtml T) = escapeHtml T
   <-> forallb (fun c => negb (significant c)) T = true)
  /\ (escapeHtml (escapeHtml T) = escapeHtml T -> escapeHtml T = T).
Proof.
  assert (Hiff : escapeHtml (escapeHtml T) = escapeHtml T
                 <-> forallb (fun c => negb (significant c)) T = true).
  { split.
    - intro Heq.
      destruct (forallb (fun c => negb (significant c)) T) eqn:E;
        [reflexivity|exfalso].
      apply flat_map_entity_keeps_significant in E.
      apply flat_map_entity_longer in E.
      rewrite <- !escapeHtml_entity in E.
      rewrite Heq in E. lia.
    - intro H. now rewrite !(escapeHtml_plain _ H). }
  split; [exact Hiff|].
  intro Heq. apply escapeHtml_plain. now apply Hiff.
Qed.

(** C4 (as stated) fails on the one-character text [&]: once escaped it
    is [&amp;], twice escaped it is [&amp;amp;]. *)
Lemma escapeHtml_not_idempotent :
  escapeHtml (lit "&") = lit "&amp;"
  /\ escapeHtml (escapeHtml (lit "&")) = lit "&amp;amp;"
  /\ escapeHtml (escapeHtml (lit "&")) <> escapeHtml (lit "&").
Proof. repeat split. discriminate. Qed.

(** C10 (as amended). [escapeHtml] rewrites the text unit by unit: [&],
    [<], [>] and the no-break space U+00A0 become [&amp;], [&lt;],
    [&gt;] and [&nbsp;]; every other code unit, the double and the single
    quote among them, is copied. *)
Theorem escapeHtml_unit_by_unit :
  (forall T, escapeHtml T = flat_map entity T)
  /\ entity AMP = lit "&amp;"
  /\ entity LT = lit "&lt;"
  /\ entity GT = lit "&gt;"
  /\ entity NBSP = lit "&nbsp;"
  /\ (forall c, c <> AMP -> c <> LT -> c <> GT -> c <> NBSP -> entity c = [c])
  /\ entity QUOT = [QUOT]
  /\ entity APOS = [APOS].
Proof.
  split; [exact escapeHtml_entity|].
  repeat split.
  intros c Ha Hl Hg Hn. apply entity_plain. unfold significant.
  apply N.eqb_neq in Ha, Hl, Hg, Hn. now rewrite Ha, Hl, Hg, Hn.
Qed.

(** C10 (as stated) fails on the text made of one no-break space, which is
    none of the three characters and is not left unchanged. *)
Lemma escapeHtml_rewrites_nbsp :
  escapeHtml [NBSP] = lit "&nbsp;"
  /\ escapeHtml [NBSP] <> flat_map entity_of_three [NBSP].
Proof. split; [reflexivity|discriminate]. Qed.

(** The cases of the repository's test suite for [escapeHtml]. *)
Example escapeHtml_test_entities :
  escapeHtml (lit "<div>test</div>") = lit "&lt;div&gt;test&lt;/div&gt;".
Proof. reflexivity. Qed.

Example escapeHtml_test_script :
  escapeHtml (lit "<script>alert(" ++ [QUOT] ++ lit "xss" ++ [QUOT]
              ++ lit ")</script>")
  = lit "&lt;script&gt;alert(" ++ [QUOT] ++ lit "xss" ++ [QUOT]
    ++ lit ")&lt;/script&gt;".
Proof. reflexivity. Qed.

Example escapeHtml_test_plain :
  escapeHtml (lit "normal text") = lit "normal text".
Proof. reflexivity. Qed.

Example escapeHtml_test_ampersand :
  escapeHtml (lit "Tom & Jerry") = lit "Tom &amp; Jerry".
Proof. reflexivity. Qed.

Example escapeHtml_test_empty : escapeHtml (lit "") = lit "".
Proof. reflexivity. Qed.

(* ----------------------------------------------------------------- *)
(** ** Tokens *)

Example split_ws_words :
  split_ws (lit "a b") = [lit "a"; lit " "; lit "b"].
Proof. reflexivity. Qed.

Example split_ws_edges :
  split_ws (lit " a  b ")
  = [lit ""; lit " "; lit "a"; lit "  "; lit "b"; lit " "; lit ""].
Proof. reflexivity. Qed.

Example split_ws_empty : split_ws (lit "") = [lit ""].
Proof. reflexivity. Qed.

Lemma scan_concat (s : jsstring) :
  (forall w, concat (scan_word w s) = w ++ s)
  /\ (forall r, concat (scan_space r s) = r ++ s).
Proof.
  induction s as [|c s [IHw IHs]]; split; intro a; simpl.
  - reflexivity.
  - now rewrite !app_nil_r.
  - destruct (is_ws c); simpl.
    + now rewrite IHs.
    + now rewrite IHw, <- app_assoc.
  - destruct (is_ws c); simpl.
    + now rewrite IHs, <- app_assoc.
    + now rewrite IHw.
Qed.

Lemma concat_split_ws (text : jsstring) : concat (split_ws text) = text.
Proof. unfold split_ws. now rewrite (proj1 (scan_concat text)). Qed.

(** C5. The tokens of [text.split(/(\s+)/)], white-space runs included,
    concatenated in order, are the text: no code unit and no token is
    dropped. *)
Theorem split_ws_concat (text : jsstring) : cat (split_ws text) = text.
Proof. unfold cat. apply concat_split_ws. Qed.

Lemma scan_uniform (s : jsstring) :
  (forall w, forallb (fun c => negb (is_ws c)) w = true ->
             forallb uniform (scan_word w s) = true)
  /\ (forall r, forallb is_ws r = true ->
                forallb uniform (scan_space r s) = true).
Proof.
  induction s as [|c s [IHw IHs]]; split; intros a Ha; simpl.
  - unfold uniform. rewrite Ha. now rewrite orb_true_r.
  - unfold uniform. now rewrite Ha.
  - destruct (is_ws c) eqn:E; simpl.
    + unfold uniform at 1. rewrite Ha, orb_true_r. simpl.
      apply IHs. simpl. now rewrite E.
    + apply IHw. rewrite forallb_app, Ha. simpl. now rewrite E.
  - destruct (is_ws c) eqn:E; simpl.
    + apply IHs. rewrite forallb_app, Ha. simpl. now rewrite E.
    + unfold uniform at 1. rewrite Ha. simpl.
      apply IHw. simpl. now rewrite E.
Qed.

(** Every token is a run of white space or a run without any. *)
Lemma split_ws_uniform (text : jsstring) :
  forallb uniform (split_ws text) = true.
Proof. apply (proj1 (scan_uniform text)). reflexivity. Qed.

(* ----------------------------------------------------------------- *)
(** ** Diff highlighter *)

Lemma starts_with_app (m rest : jsstring) : starts_with m (m ++ rest) = true.
Proof.
  induction m as [|x m IH]; simpl; [reflexivity|].
  now rewrite N.eqb_refl, IH.
Qed.

Lemma strip_from_skip (u rest : jsstring) :
  strip_from (length u) (u ++ rest) = strip_from 0 rest.
Proof. induction u as [|x u IH]; simpl; [reflexivity|exact IH]. Qed.

Lemma strip_from_0_cons (c : code_unit) (s' : jsstring) :
  strip_from 0 (c :: s') =
  if starts_with removed_open (c :: s')
  then strip_from (length (tl removed_open)) s'
  else if starts_with added_open (c :: s')
  then strip_from (length (tl added_open)) s'
  else if starts_with span_close (c :: s')
  then strip_from (length (tl span_close)) s'
  else c :: strip_from 0 s'.
Proof. reflexivity. Qed.

Lemma strip_removed_open (rest : jsstring) :
  strip_markers (removed_open ++ rest) = strip_markers rest.
Proof.
  unfold strip_markers.
  remember (removed_open ++ rest) as s eqn:Es.
  assert (Hs : starts_with removed_open s = true)
    by (subst s; apply starts_with_app).
  destruct s as [|c s']; [discriminate|].
  rewrite strip_from_0_cons, Hs.
  injection Es as _ ->.
  apply (strip_from_skip (tl removed_open) rest).
Qed.

Lemma strip_added_open (rest : jsstring) :
  strip_markers (added_open ++ rest) = strip_markers rest.
Proof.
  unfold strip_markers.
  remember (added_open ++ rest) as s eqn:Es.
  assert (Hs : starts_with added_open s = true)
    by (subst s; apply starts_with_app).
  assert (Hr : starts_with removed_open s = false)
    by (subst s; reflexivity).
  destruct s as [|c s']; [discriminate|].
  rewrite strip_from_0_cons, Hr, Hs.
  injection Es as _ ->.
  apply (strip_from_skip (tl added_open) rest).
Qed.

Lemma strip_span_close (rest : jsstring) :
  strip_markers (span_close ++ rest) = strip_markers rest.
Proof.
  unfold strip_markers.
  remember (span_close ++ rest) as s eqn:Es.
  assert (Hs : starts_with span_close s = true)
    by (subst s; apply starts_with_app).
  assert (Hr : starts_with removed_open s = false)
    by (subst s; reflexivity).
  assert (Ha : starts_with added_open s = false)
    by (subst s; reflexivity).
  destruct s as [|c s']; [discriminate|].
  rewrite strip_from_0_cons, Hr, Ha, Hs.
  injection Es as _ ->.
  apply (strip_from_skip (tl span_close) rest).
Qed.

Lemma starts_with_other_head (x c : code_unit) (m rest : jsstring) :
  N.eqb x c = false -> starts_with (x :: m) (c :: rest) = false.
Proof. intro E. simpl. now rewrite E. Qed.

Lemma strip_plain_unit (c : code_unit) (rest : jsstring) :
  c <> LT -> strip_markers (c :: rest) = c :: strip_markers rest.
Proof.
  intro H. unfold strip_markers. rewrite strip_from_0_cons.
  assert (E : N.eqb LT c = false) by (apply N.eqb_neq; congruence).
  rewrite (@starts_with_other_head LT c (tl removed_open) rest E
           : starts_with removed_open (c :: rest) = false).
  rewrite (@starts_with_other_head LT c (tl added_open) rest E
           : starts_with added_open (c :: rest) = false).
  rewrite (@starts_with_other_head LT c (tl span_close) rest E
           : starts_with span_close (c :: rest) = false).
  reflexivity.
Qed.

Lemma strip_plain (u rest : jsstring) :
  forallb (fun c => negb (N.eqb c LT)) u = true ->
  strip_markers (u ++ rest) = u ++ strip_markers rest.
Proof.
  induction u as [|c u IH]; simpl; [reflexivity|].
  intro H. apply andb_true_iff in H. destruct H as [Hc Hu].
  apply negb_true_iff, N.eqb_neq in Hc.
  rewrite strip_plain_unit by exact Hc.
  now rewrite IH.
Qed.

Lemma entity_no_lt (c : code_unit) :
  forallb (fun x => negb (N.eqb x LT)) (entity c) = true.
Proof.
  unfold entity.
  destruct (N.eqb c AMP); [reflexivity|].
  destruct (N.eqb c LT) eqn:E; [reflexivity|].
  destruct (N.eqb c GT); [reflexivity|].
  destruct (N.eqb c NBSP); [reflexivity|].
  simpl. now rewrite E.
Qed.

Lemma escapeHtml_no_lt (w : jsstring) :
  forallb (fun x => negb (N.eqb x LT)) (escapeHtml w) = true.
Proof.
  rewrite escapeHtml_entity.
  induction w as [|c w IH]; [reflexivity|].
  change (flat_map entity (c :: w)) with (entity c ++ flat_map entity w).
  rewrite forallb_app, entity_no_lt. exact IH.
Qed.

Lemma compare_position_pieces words1 words2 h1 h2 i :
  compare_position words1 words2 (h1, h2) i
  = (h1 ++ piece1 words1 words2 i, h2 ++ piece2 words1 words2 i).
Proof.
  unfold compare_position, piece1, piece2.
  destruct (negb (str_eqb (word_at words1 i) (word_at words2 i)));
    [|reflexivity].
  destruct (nonempty (word_at words1 i)), (nonempty (word_at words2 i));
    now rewrite ?app_nil_r.
Qed.

Lemma loop_pieces words1 words2 (l : list nat) : forall h1 h2,
  fold_left (compare_position words1 words2) l (h1, h2)
  = (h1 ++ concat (map (piece1 words1 words2) l),
     h2 ++ concat (map (piece2 words1 words2) l)).
Proof.
  induction l as [|i l IH]; intros h1 h2; cbn [fold_left map concat].
  - now rewrite !app_nil_r.
  - now rewrite compare_position_pieces, IH, <- !app_assoc.
Qed.

Lemma strip_piece1 words1 words2 i rest :
  strip_markers (piece1 words1 words2 i ++ rest)
  = escapeHtml (word_at words1 i) ++ strip_markers rest.
Proof.
  unfold piece1.
  destruct (negb (str_eqb (word_at words1 i) (word_at words2 i))).
  - destruct (word_at words1 i) as [|c w] eqn:E; [reflexivity|].
    cbn [nonempty]. rewrite <- !app_assoc.
    rewrite strip_removed_open, strip_plain by apply escapeHtml_no_lt.
    now rewrite strip_span_close.
  - apply strip_plain, escapeHtml_no_lt.
Qed.

Lemma strip_piece2 words1 words2 i rest :
  strip_markers (piece2 words1 words2 i ++ rest)
  = escapeHtml (word_at words2 i) ++ strip_markers rest.
Proof.
  unfold piece2.
  destruct (negb (str_eqb (word_at words1 i) (word_at words2 i))).
  - destruct (word_at words2 i) as [|c w] eqn:E; [reflexivity|].
    cbn [nonempty]. rewrite <- !app_assoc.
    rewrite strip_added_open, strip_plain by apply escapeHtml_no_lt.
    now rewrite strip_span_close.
  - apply strip_plain, escapeHtml_no_lt.
Qed.

Lemma strip_pieces1 words1 words2 (l : list nat) :
  strip_markers (concat (map (piece1 words1 words2) l))
  = concat (map (fun i => escapeHtml (word_at words1 i)) l).
Proof.
  induction l as [|i l IH]; [reflexivity|].
  cbn [map concat]. now rewrite strip_piece1, IH.
Qed.

Lemma strip_pieces2 words1 words2 (l : list nat) :
  strip_markers (concat (map (piece2 words1 words2) l))
  = concat (map (fun i => escapeHtml (word_at words2 i)) l).
Proof.
  induction l as [|i l IH]; [reflexivity|].
  cbn [map concat]. now rewrite strip_piece2, IH.
Qed.

Lemma word_at_nth (words : list jsstring) (i : nat) :
  word_at words i = nth i words [].
Proof.
  unfold word_at. revert i.
  induction words as [|w words IH]; intros [|i]; simpl; try reflexivity.
  - now destruct w.
  - apply IH.
Qed.

Lemma escaped_words_concat (words : list jsstring) : forall n,
  (length words <= n)%nat ->
  concat (map (fun i => escapeHtml (word_at words i)) (seq 0 n))
  = escapeHtml (concat words).
Proof.
  induction words as [|w words IH]; intros n Hn.
  - clear Hn. generalize 0%nat as a.
    induction n as [|n IHn]; intro a; [reflexivity|].
    cbn [seq map concat]. rewrite IHn, word_at_nth.
    now destruct a.
  - destruct n as [|n]; [simpl in Hn; lia|].
    cbn [seq map concat].
    rewrite <- seq_shift, map_map.
    rewrite escapeHtml_app, <- (IH n) by (simpl in Hn; lia).
    f_equal. now rewrite word_at_nth.
Qed.

(** The example of the specification: one differing word. *)
Example highlight_one_word :
  highlightDifferences (lit "a b") (lit "a c")
  = (lit "a " ++ removed_open ++ lit "b" ++ span_close,
     lit "a " ++ added_open ++ lit "c" ++ span_close).
Proof. reflexivity. Qed.

(** A text compared with itself carries no marker. *)
Example highlight_same_text :
  highlightDifferences (lit "x < y") (lit "x < y")
  = (lit "x &lt; y", lit "x &lt; y").
Proof. reflexivity. Qed.

Lemma highlight_pieces (text1 text2 : jsstring) :
  let words1 := split_ws text1 in
  let words2 := split_ws text2 in
  let positions := seq 0 (Nat.max (length words1) (length words2)) in
  highlightDifferences text1 text2
  = (concat (map (piece1 words1 words2) positions),
     concat (map (piece2 words1 words2) positions)).
Proof.
  intros words1 words2 positions.
  unfold highlightDifferences. fold words1 words2 positions.
  now rewrite loop_pieces.
Qed.

(** C3. Each output of [highlightDifferences], with the markers of the
    removed and added spans stripped, is the escaped form of its input:
    the first output gives back [escapeHtml text1], the second
    [escapeHtml text2]. *)
Theorem highlight_strip_escapes (text1 text2 : jsstring) :
  strip_markers (fst (highlightDifferences text1 text2)) = escapeHtml text1
  /\ strip_markers (snd (highlightDifferences text1 text2))
     = escapeHtml text2.
Proof.
  rewrite highlight_pieces. cbn [fst snd].
  rewrite strip_pieces1, strip_pieces2.
  rewrite !escaped_words_concat by lia.
  now rewrite !concat_split_ws.
Qed.

(* ----------------------------------------------------------------- *)
(** ** Response normaliser *)

Lemma get_prop (v : value) (k : key) :
  nullish v = false -> get v k = Ok (prop v k).
Proof. unfold prop. destruct v; try discriminate; intros _; now destruct k. Qed.

Lemma truthy_not_nullish (v : value) : truthy v = true -> nullish v = false.
Proof. now destruct v. Qed.

Lemma get_nullish (v : value) (k : key) :
  nullish v = true -> get v k = Throw TypeError.
Proof. now destruct v. Qed.

Ltac guard_result :=
  cbv beta iota;
  repeat match goal with
         | E : truthy ?v = _ |- context [truthy ?v] => rewrite E; cbv beta iota
         end;
  eexists; split; [reflexivity | cbn [andb]; (assumption || reflexivity)].

Lemma openai_guard_shaped (data : value) :
  nullish data = false ->
  exists a, openai_guard data = Ok a /\ truthy a = openai_shaped data.
Proof.
  intro Hd. unfold openai_guard, openai_shaped, and_, path, bind.
  rewrite (get_prop data choices Hd); cbv beta iota.
  destruct (truthy (prop data choices)) eqn:Ec; [|guard_result].
  rewrite (get_prop _ (Index 0) (truthy_not_nullish _ Ec)); cbv beta iota.
  destruct (truthy (prop (prop data choices) (Index 0))) eqn:E0;
    [|guard_result].
  rewrite (get_prop _ message (truthy_not_nullish _ E0)); cbv beta iota.
  guard_result.
Qed.

Lemma anthropic_guard_shaped (data : value) :
  nullish data = false ->
  exists b, anthropic_guard data = Ok b /\ truthy b = anthropic_shaped data.
Proof.
  intro Hd. unfold anthropic_guard, anthropic_shaped, and_, path, bind.
  rewrite (get_prop data content_ Hd); cbv beta iota.
  destruct (truthy (prop data content_)) eqn:Ec; [|guard_result].
  rewrite (get_prop _ (Index 0) (truthy_not_nullish _ Ec)); cbv beta iota.
  destruct (truthy (prop (prop data content_) (Index 0))) eqn:E0;
    [|guard_result].
  rewrite (get_prop _ text (truthy_not_nullish _ E0)); cbv beta iota.
  guard_result.
Qed.

Lemma or_zero_count (data : value) (k : key) :
  nullish data = false ->
  truthy (prop data usage) = true ->
  or_ (path data [usage; k]) (Ok (VNum 0))
  = Ok (count_or_zero (prop data usage) k).
Proof.
  intros Hd Hu. unfold or_, path, bind, count_or_zero.
  rewrite (get_prop data usage Hd), (get_prop _ k (truthy_not_nullish _ Hu)), Hu.
  now destruct (truthy (prop (prop data usage) k)).
Qed.

Lemma path_one (data : value) (k : key) :
  nullish data = false -> path data [k] = Ok (prop data k).
Proof. intro Hd. unfold path, bind. now rewrite (get_prop data k Hd). Qed.

Lemma path_openai_content (data : value) :
  nullish data = false -> openai_shaped data = true ->
  path data [choices; Index 0; message; content_]
  = Ok (prop (prop (prop (prop data choices) (Index 0)) message) content_).
Proof.
  intros Hd H. unfold openai_shaped in H.
  apply andb_true_iff in H. destruct H as [H Hm].
  apply andb_true_iff in H. destruct H as [Hc H0].
  unfold path, bind.
  rewrite (get_prop data choices Hd).
  rewrite (get_prop _ (Index 0) (truthy_not_nullish _ Hc)).
  rewrite (get_prop _ message (truthy_not_nullish _ H0)).
  now rewrite (get_prop _ content_ (truthy_not_nullish _ Hm)).
Qed.

Lemma path_anthropic_text (data : value) :
  nullish data = false -> anthropic_shaped data = true ->
  path data [content_; Index 0; text]
  = Ok (prop (prop (prop data content_) (Index 0)) text).
Proof.
  intros Hd H. unfold anthropic_shaped in H.
  apply andb_true_iff in H. destruct H as [H _].
  apply andb_true_iff in H. destruct H as [Hc H0].
  unfold path, bind.
  rewrite (get_prop data content_ Hd).
  rewrite (get_prop _ (Index 0) (truthy_not_nullish _ Hc)).
  now rewrite (get_prop _ text (truthy_not_nullish _ H0)).
Qed.

Lemma count_or_zero_falsy (u : value) (k : key) :
  truthy u = false -> count_or_zero u k = VNum 0.
Proof. unfold count_or_zero. now intros ->. Qed.

Lemma count_or_zero_nonneg (u : value) (k : key) :
  count_ok (prop u k) -> nonneg_int (count_or_zero u k) = true.
Proof.
  unfold count_or_zero, count_ok. intros [H|H].
  - rewrite H. now destruct (truthy u).
  - destruct (truthy u); [|reflexivity].
    now destruct (truthy (prop u k)).
Qed.

(** Induction on a value through the elements of its arrays. *)
Lemma value_elements_ind (P : value -> Prop) :
  P VUndefined -> P VNull -> (forall b, P (VBool b)) ->
  (forall x, P (VNum x)) -> (forall s, P (VStr s)) ->
  (forall items, Forall P items -> P (VArr items)) ->
  (forall fields, P (VObj fields)) ->
  forall v, P v.
Proof.
  intros Hu Hn Hb Hx Hs Ha Ho.
  exact (fix go (v : value) : P v :=
           match v with
           | VUndefined => Hu
           | VNull => Hn
           | VBool b => Hb b
           | VNum x => Hx x
           | VStr s => Hs s
           | VArr items =>
               Ha items
                  ((fix all (l : list value) : Forall P l :=
                      match l with
                      | [] => Forall_nil P
                      | x :: rest => Forall_cons x (go x) (all rest)
                      end) items)
           | VObj fields => Ho fields
           end).
Qed.

Section NormaliserFacts.

Variable number_to_string : float -> jsstring.

Lemma join_elements_fix (items : list value) : forall first,
  (fix join (first : bool) (l : list value) : result jsstring :=
     match l with
     | [] => Ok []
     | x :: rest =>
         bind (match x with
               | VUndefined | VNull => Ok (lit "")
               | _ => to_string number_to_string x
               end) (fun next =>
         bind (join false rest) (fun tail_ =>
         Ok ((if first then lit "" else lit ",") ++ next ++ tail_)))
     end) first items
  = join_elements number_to_string first items.
Proof.
  induction items as [|x items IH]; intro first; [reflexivity|].
  cbn [join_elements]. rewrite <- (IH false). reflexivity.
Qed.

Lemma to_string_array (items : list value) :
  to_string number_to_string (VArr items)
  = join_elements number_to_string true items.
Proof. apply join_elements_fix. Qed.

Lemma join_elements_outcome (items : list value) :
  Forall (fun v =>
            (stringable v = true
             /\ exists s, to_string number_to_string v = Ok s)
            \/ (stringable v = false
                /\ to_string number_to_string v = Throw TypeError)) items ->
  forall first,
    (forallb stringable items = true
     /\ exists s, join_elements number_to_string first items = Ok s)
    \/ (forallb stringable items = false
        /\ join_elements number_to_string first items = Throw TypeError).
Proof.
  induction 1 as [|x items Hx _ IHitems]; intro first.
  - left. split; [reflexivity|eexists; reflexivity].
  - cbn [forallb join_elements].
    assert (Hx' : (stringable x = true
                   /\ exists s, match x with
                                | VUndefined | VNull => Ok (lit "")
                                | _ => to_string number_to_string x
                                end = Ok s)
                  \/ (stringable x = false
                      /\ match x with
                         | VUndefined | VNull => Ok (lit "")
                         | _ => to_string number_to_string x
                         end = Throw TypeError)).
    { destruct x; try exact Hx;
        (left; split; [reflexivity|eexists; reflexivity]). }
    destruct Hx' as [[Hs [s Es]]|[Hs Es]]; rewrite Hs, Es; cbn [bind andb].
    + destruct (IHitems false) as [[Hr [t Et]]|[Hr Et]]; rewrite Hr, Et.
      * left. split; [reflexivity|eexists; reflexivity].
      * right. split; reflexivity.
    + right. split; reflexivity.
Qed.

(** ToString throws exactly on the values that are not [stringable], and
    then a [TypeError]. *)
Lemma to_string_outcome (v : value) :
  (stringable v = true /\ exists s, to_string number_to_string v = Ok s)
  \/ (stringable v = false /\ to_string number_to_string v = Throw TypeError).
Proof.
  induction v as [| |b|x|s|items IH|fields] using value_elements_ind;
    try (left; split; [reflexivity|eexists; reflexivity]).
  - rewrite to_string_array. cbn [stringable].
    apply join_elements_outcome, IH.
  - cbn [stringable to_string].
    destruct (has_own (lit "toString") fields).
    + right. split; reflexivity.
    + left. split; [reflexivity|eexists; reflexivity].
Qed.

Lemma to_primitive_outcome (v : value) :
  (stringable v = true
   /\ exists p, to_primitive number_to_string v = Ok p
                /\ stringable p = true
                /\ (exists s, to_string number_to_string p = Ok s)
                /\ match p with VArr _ | VObj _ => False | _ => True end)
  \/ (stringable v = false
      /\ to_primitive number_to_string v = Throw TypeError).
Proof.
  destruct (to_string_outcome v) as [[Hs [s Es]]|[Hs Es]].
  - left. split; [exact Hs|].
    destruct v; try (eexists; split; [reflexivity|];
                     split; [reflexivity|]; split; [eexists; reflexivity|exact I]).
    + exists (VStr s). unfold to_primitive. rewrite Es.
      split; [reflexivity|]. split; [reflexivity|].
      split; [eexists; reflexivity|exact I].
    + exists (VStr s). unfold to_primitive. rewrite Es.
      split; [reflexivity|]. split; [reflexivity|].
      split; [eexists; reflexivity|exact I].
  - right. split; [exact Hs|].
    destruct v; try discriminate Hs; unfold to_primitive; now rewrite Es.
Qed.

(** [+] throws exactly when one of its operands is not [stringable], and
    then a [TypeError]. *)
Lemma add_outcome (a b : value) :
  (stringable a && stringable b = true
   /\ exists v, add number_to_string a b = Ok v)
  \/ (stringable a && stringable b = false
      /\ add number_to_string a b = Throw TypeError).
Proof.
  unfold add.
  destruct (to_primitive_outcome a) as [[Ha [pa [Ea [_ [[sa Sa] Pa]]]]]|[Ha Ea]];
    rewrite Ha, Ea; cbn [bind andb]; [|right; split; reflexivity].
  destruct (to_primitive_outcome b) as [[Hb [pb [Eb [_ [[sb Sb] Pb]]]]]|[Hb Eb]];
    rewrite Hb, Eb; cbn [bind]; [|right; split; reflexivity].
  left. split; [reflexivity|].
  destruct pa; try contradiction; destruct pb; try contradiction;
    try rewrite Sa; try rewrite Sb; cbn [bind]; eexists; reflexivity.
Qed.

(** On two numbers [+] is the sum of doubles. *)
Lemma add_numbers (a b : value) :
  nonneg_int a = true -> nonneg_int b = true ->
  exists p c, a = VNum p /\ b = VNum c
              /\ add number_to_string a b = Ok (VNum (p + c)%float).
Proof.
  destruct a; try discriminate. destruct b; try discriminate.
  intros _ _. eexists _, _. repeat split.
Qed.

Lemma add_zeros :
  add number_to_string (VNum 0) (VNum 0) = Ok (VNum 0).
Proof. reflexivity. Qed.

Lemma normalize_shape (responseTime : float) (data : value) :
  normalize number_to_string responseTime data
  = normalize_by_shape number_to_string responseTime data.
Proof.
  unfold normalize_by_shape.
  destruct (nullish data) eqn:Hd.
  { unfold normalize, openai_guard, and_, path, bind.
    now rewrite (get_nullish data choices Hd). }
  unfold normalize.
  destruct (openai_guard_shaped data Hd) as [a [Ea Ta]].
  rewrite Ea. cbn [bind]. rewrite Ta.
  destruct (openai_shaped data) eqn:EA.
  - rewrite (path_openai_content data Hd EA), (path_one data usage Hd).
    cbn [bind].
    destruct (truthy (prop data usage)) eqn:Eu.
    + rewrite !(or_zero_count data _ Hd Eu). reflexivity.
    + unfold count_or_zero. now rewrite Eu.
  - destruct (anthropic_guard_shaped data Hd) as [b [Eb Tb]].
    rewrite Eb. cbn [bind]. rewrite Tb.
    destruct (anthropic_shaped data) eqn:EB; [|reflexivity].
    rewrite (path_anthropic_text data Hd EB), (path_one data usage Hd).
    cbn [bind].
    destruct (truthy (prop data usage)) eqn:Eu.
    + rewrite !(or_zero_count data _ Hd Eu). reflexivity.
    + rewrite !(count_or_zero_falsy _ _ Eu), add_zeros. reflexivity.
Qed.

Lemma normalize_ok_not_nullish rt raw r :
  normalize number_to_string rt raw = Ok r -> nullish raw = false.
Proof.
  rewrite normalize_shape. unfold normalize_by_shape.
  now destruct (nullish raw).
Qed.

(** C1 (as amended). For an accepted payload: in the OpenAI branch
    [totalTokens] is the [total_tokens] of the usage object when the
    usage object and that count are truthy, and 0 otherwise, whatever the
    two components are; in the Anthropic branch it is the value of
    [promptTokens + completionTokens], JavaScript's [+] on the two stored
    counts. *)
Theorem normalize_total_tokens rt raw r :
  normalize number_to_string rt raw = Ok r ->
  (openai_shaped raw = true
   /\ totalTokens r = count_or_zero (prop raw usage) total_tokens)
  \/ (openai_shaped raw = false /\ anthropic_shaped raw = true
      /\ add number_to_string (promptTokens r) (completionTokens r)
         = Ok (totalTokens r)).
Proof.
  rewrite normalize_shape. unfold normalize_by_shape.
  destruct (nullish raw); [discriminate|].
  destruct (openai_shaped raw).
  - intro H. injection H as <-. left. now split.
  - destruct (anthropic_shaped raw); [|discriminate].
    destruct (add number_to_string
                (count_or_zero (prop raw usage) input_tokens)
                (count_or_zero (prop raw usage) output_tokens))
      as [total|e] eqn:E; [|discriminate].
    cbn [bind]. intro H. injection H as <-. right. now repeat split.
Qed.

Lemma first_block_text_shaped raw t :
  first_block_text raw = Some t ->
  nullish raw = false
  /\ prop (prop (prop raw content_) (Index 0)) text = VStr t
  /\ anthropic_shaped raw = nonempty t.
Proof.
  unfold first_block_text, anthropic_shaped. intro H.
  split; [now destruct raw|].
  destruct (prop raw content_) as [| | | | |items|]; try discriminate.
  destruct items as [|first items]; [discriminate|].
  change (prop (VArr (first :: items)) (Index 0)) with first.
  destruct (prop first text) as [| | | |s| |] eqn:Et; try discriminate.
  injection H as ->.
  split; [reflexivity|].
  destruct first; try discriminate Et.
  now destruct t.
Qed.

(** C2 (as amended). A payload whose [content] list starts with an
    element carrying a non-empty [text] string, which does not pass the
    guard of the OpenAI branch, and whose two counts can be added (neither
    is an object with an own [toString], nor an array that holds one), is
    accepted, and the content of the result is that text. *)
Theorem normalize_block_text rt raw t :
  first_block_text raw = Some t ->
  t <> [] ->
  openai_shaped raw = false ->
  counts_addable raw = true ->
  exists r, normalize number_to_string rt raw = Ok r /\ content r = VStr t.
Proof.
  intros H Hne HA Hadd.
  destruct (first_block_text_shaped raw H) as [Hn [Ht HB]].
  rewrite normalize_shape. unfold normalize_by_shape.
  rewrite Hn, HA, HB, Ht.
  destruct t; [congruence|]. cbn [nonempty].
  destruct (add_outcome (count_or_zero (prop raw usage) input_tokens)
              (count_or_zero (prop raw usage) output_tokens))
    as [[_ [total E]]|[F _]].
  - rewrite E. eexists. split; reflexivity.
  - unfold counts_addable in Hadd. congruence.
Qed.

(** C6 (as amended). A decoded payload other than [null] that passes
    neither guard (not all of [choices], [choices[0]],
    [choices[0].message] truthy, and not all of [content], [content[0]],
    [content[0].text] truthy) is rejected with the error
    "Unexpected response format"; no record is built. *)
Theorem normalize_rejects_unshaped rt raw :
  nullish raw = false ->
  openai_shaped raw = false ->
  anthropic_shaped raw = false ->
  normalize number_to_string rt raw = Throw unexpected_format
  /\ unexpected_format = Error (lit "Unexpected response format").
Proof.
  intros Hn HA HB. split; [|reflexivity].
  rewrite normalize_shape. unfold normalize_by_shape.
  now rewrite Hn, HA, HB.
Qed.

(** The body [null] is not rejected as a format error: reading
    [data.choices] throws. *)
Lemma normalize_null rt : normalize number_to_string rt VNull = Throw TypeError.
Proof. reflexivity. Qed.

Lemma count_or_zero_stored (u : value) (k : key) :
  (truthy u = true -> truthy (prop u k) = true -> count_or_zero u k = prop u k)
  /\ (truthy (prop u k) = false -> count_or_zero u k = VNum 0).
Proof.
  unfold count_or_zero. split.
  - now intros -> ->.
  - intros ->. now destruct (truthy u).
Qed.

(** C8 (as amended). For an accepted payload the three counts are 0 when
    the payload has no usage object (or a falsy one).  Otherwise
    [promptTokens] and [completionTokens], and [totalTokens] in the OpenAI
    branch, are the count of the usage object under its name, stored as
    it is when it is truthy and 0 when it is absent or falsy; nothing is
    validated.  So these are non-negative integers when every count the
    usage object supplies is one, and the [totalTokens] of the Anthropic
    branch is then the sum of the two as doubles (which rounds past 2^53
    and can overflow to infinity). *)
Theorem normalize_counts rt raw r :
  normalize number_to_string rt raw = Ok r ->
  (truthy (prop raw usage) = false ->
   promptTokens r = VNum 0 /\ completionTokens r = VNum 0
   /\ totalTokens r = VNum 0)
  /\ ((openai_shaped raw = true
       /\ promptTokens r = count_or_zero (prop raw usage) prompt_tokens
       /\ completionTokens r
          = count_or_zero (prop raw usage) completion_tokens
       /\ totalTokens r = count_or_zero (prop raw usage) total_tokens)
      \/ (openai_shaped raw = false
          /\ promptTokens r = count_or_zero (prop raw usage) input_tokens
          /\ completionTokens r
             = count_or_zero (prop raw usage) output_tokens))
  /\ (forall k,
        (truthy (prop raw usage) = true ->
         truthy (prop (prop raw usage) k) = true ->
         count_or_zero (prop raw usage) k = prop (prop raw usage) k)
        /\ (truthy (prop (prop raw usage) k) = false ->
            count_or_zero (prop raw usage) k = VNum 0))
  /\ ((forall k, In k count_names -> count_ok (prop (prop raw usage) k)) ->
      nonneg_int (promptTokens r) = true
      /\ nonneg_int (completionTokens r) = true
      /\ (openai_shaped raw = true -> nonneg_int (totalTokens r) = true)
      /\ (openai_shaped raw = false ->
          exists p c, promptTokens r = VNum p /\ completionTokens r = VNum c
                      /\ totalTokens r = VNum (p + c)%float)).
Proof.
  rewrite normalize_shape. unfold normalize_by_shape.
  destruct (nullish raw); [discriminate|].
  destruct (openai_shaped raw).
  - intro H. injection H as <-. cbn [promptTokens completionTokens totalTokens].
    split; [|split; [|split]].
    + intro Hu. now rewrite !(count_or_zero_falsy _ _ Hu).
    + left. now repeat split.
    + intro k. apply count_or_zero_stored.
    + intro Hk. split; [|split; [|split]]; try discriminate;
        try intros _; apply count_or_zero_nonneg, Hk;
        unfold count_names; simpl; auto.
  - destruct (anthropic_shaped raw); [|discriminate].
    destruct (add number_to_string
                (count_or_zero (prop raw usage) input_tokens)
                (count_or_zero (prop raw usage) output_tokens))
      as [total|e] eqn:E; [|discriminate].
    cbn [bind]. intro H. injection H as <-.
    cbn [promptTokens completionTokens totalTokens].
    split; [|split; [|split]].
    + intro Hu. rewrite !(count_or_zero_falsy _ _ Hu) in *.
      rewrite add_zeros in E. injection E as <-. now repeat split.
    + right. now repeat split.
    + intro k. apply count_or_zero_stored.
    + intro Hk.
      assert (Hp : nonneg_int (count_or_zero (prop raw usage) input_tokens)
                   = true)
        by (apply count_or_zero_nonneg, Hk; unfold count_names;
            simpl; auto 6).
      assert (Hc : nonneg_int (count_or_zero (prop raw usage) output_tokens)
                   = true)
        by (apply count_or_zero_nonneg, Hk; unfold count_names;
            simpl; auto 6).
      split; [exact Hp|]. split; [exact Hc|]. split; [discriminate|].
      intros _. destruct (add_numbers _ _ Hp Hc) as [p [c [Ep [Ec Es]]]].
      exists p, c. rewrite Es in E. injection E as <-. now repeat split.
Qed.

Lemma first_choice_message_shaped raw m :
  first_choice_message raw = Some m ->
  nullish raw = false
  /\ prop (prop (prop raw choices) (Index 0)) message = m
  /\ openai_shaped raw = true.
Proof.
  unfold first_choice_message, openai_shaped. intro H.
  split; [now destruct raw|].
  destruct (prop raw choices) as [| | | | |items|]; try discriminate.
  destruct items as [|first items]; [discriminate|].
  change (prop (VArr (first :: items)) (Index 0)) with first.
  destruct (prop first message) as [| | | | | |fields] eqn:Em;
    try discriminate.
  injection H as <-.
  split; [reflexivity|].
  now destruct first.
Qed.

Lemma same_openai_fields_result rt raw raw' :
  same_openai_fields raw raw' -> openai_result rt raw' = openai_result rt raw.
Proof.
  intros [Hc [Hu Hk]]. unfold openai_result, count_or_zero.
  rewrite Hc, Hu, !Hk by (simpl; auto).
  reflexivity.
Qed.

(** C9. A payload with a [choices] list whose first element carries a
    message object and with a [content] list whose first element carries
    a text string is parsed by the OpenAI branch: the content is the
    [content] of that message, the counts are read under the names
    [prompt_tokens], [completion_tokens] and [total_tokens], and a
    payload that differs only elsewhere (the [content] list, the counts
    [input_tokens] and [output_tokens]) gives the same result. *)
Theorem normalize_prefers_openai rt raw m t :
  first_choice_message raw = Some m ->
  first_block_text raw = Some t ->
  normalize number_to_string rt raw = Ok (openai_result rt raw)
  /\ content (openai_result rt raw) = prop m content_
  /\ forall raw', nullish raw' = false -> same_openai_fields raw raw' ->
                  normalize number_to_string rt raw'
                  = normalize number_to_string rt raw.
Proof.
  intros Hm _.
  destruct (first_choice_message_shaped raw Hm) as [Hn [Em HA]].
  assert (E : normalize number_to_string rt raw = Ok (openai_result rt raw)).
  { rewrite normalize_shape. unfold normalize_by_shape.
    now rewrite Hn, HA. }
  split; [exact E|]. split.
  - cbn [openai_result content]. now rewrite Em.
  - intros raw' Hn' Hsame. rewrite E.
    rewrite <- (same_openai_fields_result rt Hsame).
    rewrite normalize_shape. unfold normalize_by_shape.
    destruct Hsame as [Hc _].
    assert (HA' : openai_shaped raw' = true)
      by (unfold openai_shaped in *; now rewrite Hc).
    now rewrite Hn', HA'.
Qed.

End NormaliserFacts.

(** The two examples of the specification, and the empty object. *)
Example normalize_openai_example number_to_string :
  normalize number_to_string 0 openai_example
  = Ok {| content := str "hi"; responseTime := 0;
          promptTokens := VNum 3; completionTokens := VNum 2;
          totalTokens := VNum 5 |}.
Proof. reflexivity. Qed.

Example normalize_anthropic_example number_to_string :
  normalize number_to_string 0 anthropic_example
  = Ok {| content := str "hi"; responseTime := 0;
          promptTokens := VNum 3; completionTokens := VNum 2;
          totalTokens := VNum 5 |}.
Proof. reflexivity. Qed.

Example normalize_empty_object number_to_string :
  normalize number_to_string 0 (VObj [])
  = Throw (Error (lit "Unexpected response format")).
Proof. reflexivity. Qed.

(** The sum of the Anthropic branch is a sum of doubles: past 2^53 it
    rounds, and it overflows to infinity. *)
Example add_rounds number_to_string :
  add number_to_string (VNum 9007199254740992) (VNum 1)
  = Ok (VNum 9007199254740992).
Proof. reflexivity. Qed.

Example add_overflows number_to_string :
  nonneg_int (VNum 0x1p1023) = true
  /\ add number_to_string (VNum 0x1p1023) (VNum 0x1p1023)
     = Ok (VNum infinity)
  /\ nonneg_int (VNum infinity) = false.
Proof. repeat split. Qed.

(** An object with an own [toString] cannot be added. *)
Example normalize_unaddable number_to_string :
  normalize number_to_string 0 anthropic_unaddable = Throw TypeError.
Proof. reflexivity. Qed.

Lemma normalize_total_tokens_witness :
  (normalize example_engine 120 openai_example = Ok (example_record 120)
   /\ ((openai_shaped openai_example = true
        /\ VNum 5 = count_or_zero (prop openai_example usage) total_tokens)
       \/ (openai_shaped openai_example = false
           /\ anthropic_shaped openai_example = true
           /\ add example_engine (VNum 3) (VNum 2) = Ok (VNum 5))))
  /\ (normalize example_engine 120 anthropic_example = Ok (example_record 120)
      /\ ((openai_shaped anthropic_example = true
           /\ VNum 5
              = count_or_zero (prop anthropic_example usage) total_tokens)
          \/ (openai_shaped anthropic_example = false
              /\ anthropic_shaped anthropic_example = true
              /\ add example_engine (VNum 3) (VNum 2) = Ok (VNum 5)))).
Proof.
  split; (split; [reflexivity|]).
  - exact (@normalize_total_tokens example_engine 120 openai_example
             (example_record 120) eq_refl).
  - exact (@normalize_total_tokens example_engine 120 anthropic_example
             (example_record 120) eq_refl).
Defined.

(** C1 (as stated) fails on a Shape A payload whose usage object has the
    two components and no total: [totalTokens] is 0, which upstream did
    not supply and which is not 3 + 2. *)
Lemma normalize_total_not_invariant :
  matches_shape_A openai_without_total = true
  /\ supplied_total openai_without_total = None
  /\ forall number_to_string,
     exists r, normalize number_to_string 0 openai_without_total = Ok r
               /\ promptTokens r = VNum 3
               /\ completionTokens r = VNum 2
               /\ totalTokens r = VNum 0
               /\ ~ total_invariant number_to_string openai_without_total r.
Proof.
  split; [reflexivity|]. split; [reflexivity|].
  intro number_to_string. eexists. split; [reflexivity|].
  repeat split. intros [H|H]; discriminate H.
Qed.

Lemma normalize_block_text_witness :
  first_block_text anthropic_example = Some (lit "hi")
  /\ lit "hi" <> []
  /\ openai_shaped anthropic_example = false
  /\ counts_addable anthropic_example = true
  /\ exists r, normalize example_engine 0 anthropic_example = Ok r
               /\ content r = VStr (lit "hi").
Proof.
  split; [reflexivity|]. split; [discriminate|]. split; [reflexivity|].
  split; [reflexivity|].
  apply (@normalize_block_text example_engine 0 anthropic_example (lit "hi")
           eq_refl); [discriminate|reflexivity|reflexivity].
Defined.

(** C2 (as stated) fails on [{content:[{text:''}]}], which matches Shape B
    with an empty text and is rejected, and on a payload of both shapes,
    whose content is not the text of its first block. *)
Lemma normalize_block_text_fails :
  (first_block_text anthropic_empty_text = Some (lit "")
   /\ forall number_to_string,
      normalize number_to_string 0 anthropic_empty_text
      = Throw unexpected_format
      /\ ~ exists r, normalize number_to_string 0 anthropic_empty_text = Ok r
                     /\ content r = VStr (lit ""))
  /\ (first_block_text both_shapes = Some (lit "B")
      /\ forall number_to_string,
         ~ exists r, normalize number_to_string 0 both_shapes = Ok r
                     /\ content r = VStr (lit "B"))
  /\ (first_block_text anthropic_unaddable = Some (lit "hi")
      /\ matches_shape_A anthropic_unaddable = false
      /\ forall number_to_string,
         normalize number_to_string 0 anthropic_unaddable = Throw TypeError).
Proof.
  split; [|split]; (split; [reflexivity|]).
  - intro number_to_string.
    split; [reflexivity|]. intros [r [H _]]. discriminate H.
  - intros number_to_string [r [H C]]. injection H as <-. discriminate C.
  - split; [reflexivity|]. intro number_to_string. reflexivity.
Qed.

Lemma normalize_rejects_unshaped_witness :
  normalize example_engine 0 (VObj []) = Throw unexpected_format
  /\ unexpected_format = Error (lit "Unexpected response format").
Proof.
  exact (@normalize_rejects_unshaped example_engine 0 (VObj [])
           eq_refl eq_refl eq_refl).
Defined.

(** C6 (as stated) fails on [{choices:[{message:{content:null}}]}]: the
    message has no content string, so the payload matches neither shape,
    and it is accepted with content [null]. *)
Lemma normalize_accepts_null_content :
  matches_shape_A openai_null_content = false
  /\ matches_shape_B openai_null_content = false
  /\ (forall number_to_string,
        normalize number_to_string 0 openai_null_content
        = Ok {| content := VNull; responseTime := 0;
                promptTokens := VNum 0; completionTokens := VNum 0;
                totalTokens := VNum 0 |})
  /\ (forall number_to_string,
        normalize number_to_string 0 openai_null_content
        <> Throw unexpected_format).
Proof. repeat split. discriminate. Qed.

Lemma normalize_counts_witness :
  (normalize example_engine 0 anthropic_example = Ok (example_record 0)
   /\ nonneg_int (VNum 3) = true /\ nonneg_int (VNum 2) = true)
  /\ (normalize example_engine 0 anthropic_without_usage
      = Ok {| content := str "hi"; responseTime := 0;
              promptTokens := VNum 0; completionTokens := VNum 0;
              totalTokens := VNum 0 |}
      /\ truthy (prop anthropic_without_usage usage) = false
      /\ VNum 0 = VNum 0 /\ VNum 0 = VNum 0 /\ VNum 0 = VNum 0).
Proof.
  split; (split; [reflexivity|]).
  - destruct (proj2 (proj2 (proj2
      (@normalize_counts example_engine 0 anthropic_example
         (example_record 0) eq_refl)))) as [Hp [Hc _]].
    + intros k [<-|[<-|[<-|[<-|[<-|[]]]]]];
        first [left; reflexivity | right; reflexivity].
    + split; [exact Hp|exact Hc].
  - split; [reflexivity|].
    exact (proj1 (@normalize_counts example_engine 0 anthropic_without_usage
                    {| content := str "hi"; responseTime := 0;
                       promptTokens := VNum 0; completionTokens := VNum 0;
                       totalTokens := VNum 0 |} eq_refl) eq_refl).
Defined.

(** C8 (as stated) fails on a payload whose usage object reports
    [prompt_tokens: -5]: it is accepted and [promptTokens] is -5. *)
Lemma normalize_keeps_negative_count :
  nonneg_int (VNum (-5)) = false
  /\ forall number_to_string,
     exists r, normalize number_to_string 0 openai_negative_count = Ok r
               /\ promptTokens r = VNum (-5)
               /\ nonneg_int (promptTokens r) = false.
Proof. split; [reflexivity|]. intro. eexists. repeat split. Qed.

Lemma normalize_prefers_openai_witness :
  first_choice_message both_shapes = Some (obj [("content", str "A")]%string)
  /\ first_block_text both_shapes = Some (lit "B")
  /\ normalize example_engine 0 both_shapes
     = Ok {| content := str "A"; responseTime := 0;
             promptTokens := VNum 3; completionTokens := VNum 2;
             totalTokens := VNum 5 |}.
Proof.
  split; [reflexivity|]. split; [reflexivity|].
  exact (proj1 (@normalize_prefers_openai example_engine 0 both_shapes
                  (obj [("content", str "A")]%string) (lit "B")
                  eq_refl eq_refl)).
Defined.

(* ----------------------------------------------------------------- *)
(** ** Comparison orchestrator *)

Section Orchestrator.

Variable number_to_string : float -> jsstring.
Variable transport : request -> float * result response.
Variable engine_message : exn -> jsstring.
Variable second_rejects_first : bool.

Lemma requests_app (t1 t2 : list event) :
  requests (t1 ++ t2) = requests t1 ++ requests t2.
Proof. apply flat_map_app. Qed.

Lemma callModel_request endpoint apiKey model_ prompt_ :
  fst (callModel number_to_string transport endpoint apiKey model_ prompt_)
  = [Fetch (request_of endpoint apiKey model_ prompt_)].
Proof.
  unfold callModel. fold (request_of endpoint apiKey model_ prompt_).
  now destruct (transport (request_of endpoint apiKey model_ prompt_)).
Qed.

Lemma displayError_requests message_ : requests (displayError message_) = [].
Proof. reflexivity. Qed.

Lemma on_error_requests e : requests (on_error engine_message e) = [].
Proof. reflexivity. Qed.

Lemma displayResults_requests r1 r2 n1 n2 h :
  requests (fst (displayResults number_to_string r1 r2 n1 n2 h)) = [].
Proof.
  unfold displayResults.
  destruct (metrics_markup number_to_string n1 r1) as [m1|e]; [|reflexivity].
  destruct (metrics_markup number_to_string n2 r2) as [m2|e]; [|reflexivity].
  destruct h.
  - destruct (as_text (content r1)) as [t1|e1]; [|reflexivity].
    destruct (as_text (content r2)) as [t2|e2]; [|reflexivity].
    cbn [bind]. now destruct (highlightDifferences t1 t2).
  - destruct (text_of number_to_string (content r1)) as [t1|e1];
      [|reflexivity].
    now destruct (text_of number_to_string (content r2)) as [t2|e2].
Qed.

Lemma empty_iff (s : jsstring) : empty s = true <-> s = [].
Proof. destruct s; split; intro H; (reflexivity || discriminate). Qed.

(** C7. When one of the seven required fields is empty,
    [compareResponses] reports "Please fill in all fields" and returns:
    it does nothing else, and in particular issues no request. *)
Theorem compare_validates_first (f : form) :
  endpoint1 f = [] \/ endpoint2 f = [] \/ apikey1 f = [] \/ apikey2 f = []
  \/ model1 f = [] \/ model2 f = [] \/ prompt f = [] ->
  compareResponses number_to_string transport engine_message
                   second_rejects_first f
  = [Alert (lit "Please fill in all fields")]
  /\ requests (compareResponses number_to_string transport engine_message
                                second_rejects_first f) = [].
Proof.
  intro H.
  assert (E : compareResponses number_to_string transport engine_message
                               second_rejects_first f
              = [Alert (lit "Please fill in all fields")]).
  { unfold compareResponses.
    assert (G : empty (endpoint1 f) || empty (endpoint2 f)
                || empty (apikey1 f) || empty (apikey2 f)
                || empty (model1 f) || empty (model2 f)
                || empty (prompt f) = true).
    { repeat rewrite orb_true_iff. rewrite !empty_iff. tauto. }
    now rewrite G. }
  split; [exact E|]. now rewrite E.
Qed.

(** With the seven fields filled in, both requests are issued, the first
    model's before the second's, whatever the answers are. *)
Lemma compare_issues_both_requests (f : form) :
  endpoint1 f <> [] -> endpoint2 f <> [] -> apikey1 f <> [] ->
  apikey2 f <> [] -> model1 f <> [] -> model2 f <> [] -> prompt f <> [] ->
  requests (compareResponses number_to_string transport engine_message
                             second_rejects_first f)
  = [request_of (endpoint1 f) (apikey1 f) (model1 f) (prompt f);
     request_of (endpoint2 f) (apikey2 f) (model2 f) (prompt f)].
Proof.
  intros H1 H2 H3 H4 H5 H6 H7.
  unfold compareResponses.
  assert (G : empty (endpoint1 f) || empty (endpoint2 f)
              || empty (apikey1 f) || empty (apikey2 f)
              || empty (model1 f) || empty (model2 f)
              || empty (prompt f) = false).
  { repeat rewrite orb_false_iff.
    repeat split; apply not_true_is_false; rewrite empty_iff; assumption. }
  rewrite G.
  pose proof (callModel_request (endpoint1 f) (apikey1 f) (model1 f)
                (prompt f)) as C1.
  pose proof (callModel_request (endpoint2 f) (apikey2 f) (model2 f)
                (prompt f)) as C2.
  destruct (callModel number_to_string transport
              (endpoint1 f) (apikey1 f) (model1 f) (prompt f))
    as [sent1 r1].
  destruct (callModel number_to_string transport
              (endpoint2 f) (apikey2 f) (model2 f) (prompt f))
    as [sent2 r2].
  cbn [fst] in C1, C2. subst sent1 sent2.
  rewrite !requests_app.
  assert (T : requests
                match all_ second_rejects_first r1 r2 with
                | Ok (result1, result2) =>
                    let '(shown, thrown) :=
                      displayResults number_to_string result1 result2
                                     (model1 f) (model2 f)
                                     (highlightToggle f) in
                    shown ++ match thrown with
                             | Some e => on_error engine_message e
                             | None => []
                             end
                | Throw e => on_error engine_message e
                end = []).
  { destruct (all_ second_rejects_first r1 r2) as [[a b]|e];
      [|apply on_error_requests].
    pose proof (displayResults_requests a b (model1 f) (model2 f)
                  (highlightToggle f)) as D.
    destruct (displayResults number_to_string a b (model1 f) (model2 f)
                (highlightToggle f)) as [shown thrown].
    cbn [fst] in D. rewrite requests_app, D.
    destruct thrown; [apply on_error_requests|reflexivity]. }
  rewrite T. reflexivity.
Qed.

End Orchestrator.

Lemma compare_validates_first_witness :
  compareResponses example_engine refusing_transport silent_engine false
                   form_without_prompt
  = [Alert (lit "Please fill in all fields")]
  /\ requests (compareResponses example_engine refusing_transport
                                silent_engine false form_without_prompt)
     = [].
Proof.
  apply (@compare_validates_first example_engine refusing_transport
           silent_engine false form_without_prompt).
  repeat right. reflexivity.
Defined.

(* ================================================================= *)
(** * Further properties of the code *)

(* ----------------------------------------------------------------- *)
(** ** escapeHtml *)

Lemma entity_markup_safe (c : code_unit) : markup_safe (entity c) = true.
Proof.
  unfold entity, markup_safe.
  destruct (N.eqb c AMP); [reflexivity|].
  destruct (N.eqb c LT) eqn:El; [reflexivity|].
  destruct (N.eqb c GT) eqn:Eg; [reflexivity|].
  destruct (N.eqb c NBSP) eqn:En; [reflexivity|].
  cbn [forallb]. now rewrite El, Eg, En.
Qed.

(** X1. The output of [escapeHtml] holds no [<], no [>] and no no-break
    space, whatever the text: it opens no tag when written into markup. *)
Theorem escapeHtml_markup_safe (T : jsstring) :
  markup_safe (escapeHtml T) = true.
Proof.
  rewrite escapeHtml_entity. unfold markup_safe.
  induction T as [|c T IH]; [reflexivity|].
  change (flat_map entity (c :: T)) with (entity c ++ flat_map entity T).
  rewrite forallb_app.
  rewrite (entity_markup_safe c : forallb _ (entity c) = true).
  exact IH.
Qed.

Lemma unescape_from_0_cons (c : code_unit) (s' : jsstring) :
  unescape_from 0 (c :: s') =
  if starts_with (lit "&amp;") (c :: s') then AMP :: unescape_from 4 s'
  else if starts_with (lit "&lt;") (c :: s') then LT :: unescape_from 3 s'
  else if starts_with (lit "&gt;") (c :: s') then GT :: unescape_from 3 s'
  else if starts_with (lit "&nbsp;") (c :: s')
       then NBSP :: unescape_from 5 s'
  else c :: unescape_from 0 s'.
Proof. reflexivity. Qed.

Lemma unescape_from_skip (u rest : jsstring) :
  unescape_from (length u) (u ++ rest) = unescape_from 0 rest.
Proof. induction u as [|x u IH]; simpl; [reflexivity|exact IH]. Qed.

Lemma unescape_plain_unit (c : code_unit) (rest : jsstring) :
  c <> AMP -> unescape (c :: rest) = c :: unescape rest.
Proof.
  intro H. unfold unescape. rewrite unescape_from_0_cons.
  assert (E : N.eqb AMP c = false) by (apply N.eqb_neq; congruence).
  rewrite (@starts_with_other_head AMP c (tl (lit "&amp;")) rest E
           : starts_with (lit "&amp;") (c :: rest) = false).
  rewrite (@starts_with_other_head AMP c (tl (lit "&lt;")) rest E
           : starts_with (lit "&lt;") (c :: rest) = false).
  rewrite (@starts_with_other_head AMP c (tl (lit "&gt;")) rest E
           : starts_with (lit "&gt;") (c :: rest) = false).
  rewrite (@starts_with_other_head AMP c (tl (lit "&nbsp;")) rest E
           : starts_with (lit "&nbsp;") (c :: rest) = false).
  reflexivity.
Qed.

Lemma unescape_entity (c : code_unit) (rest : jsstring) :
  unescape (entity c ++ rest) = c :: unescape rest.
Proof.
  unfold entity.
  destruct (N.eqb_spec c AMP) as [->|Ha].
  { unfold unescape. exact (f_equal (cons AMP)
      (unescape_from_skip (tl (lit "&amp;")) rest)). }
  destruct (N.eqb_spec c LT) as [->|Hl].
  { unfold unescape. exact (f_equal (cons LT)
      (unescape_from_skip (tl (lit "&lt;")) rest)). }
  destruct (N.eqb_spec c GT) as [->|Hg].
  { unfold unescape. exact (f_equal (cons GT)
      (unescape_from_skip (tl (lit "&gt;")) rest)). }
  destruct (N.eqb_spec c NBSP) as [->|Hn].
  { unfold unescape. exact (f_equal (cons NBSP)
      (unescape_from_skip (tl (lit "&nbsp;")) rest)). }
  now apply unescape_plain_unit.
Qed.

Lemma unescape_escapeHtml (T : jsstring) : unescape (escapeHtml T) = T.
Proof.
  rewrite escapeHtml_entity.
  induction T as [|c T IH]; [reflexivity|].
  change (flat_map entity (c :: T)) with (entity c ++ flat_map entity T).
  rewrite unescape_entity. f_equal. exact IH.
Qed.

(** X2. [escapeHtml] loses nothing: reading the four entities back gives
    the text again, so two different texts never have the same escaped
    form. *)
Theorem escapeHtml_round_trip :
  (forall T, unescape (escapeHtml T) = T)
  /\ (forall T1 T2, escapeHtml T1 = escapeHtml T2 -> T1 = T2).
Proof.
  split; [exact unescape_escapeHtml|].
  intros T1 T2 H.
  rewrite <- (unescape_escapeHtml T1), <- (unescape_escapeHtml T2).
  now rewrite H.
Qed.

(** X3. Escaping a concatenation is concatenating the escaped parts, and
    the escaped text is never shorter than the text. *)
Theorem escapeHtml_concat (parts : list jsstring) :
  escapeHtml (concat parts) = concat (map escapeHtml parts)
  /\ (length (concat parts) <= length (escapeHtml (concat parts)))%nat.
Proof.
  split.
  - induction parts as [|p parts IH]; [reflexivity|].
    cbn [concat map]. now rewrite escapeHtml_app, IH.
  - rewrite escapeHtml_entity. apply flat_map_entity_length.
Qed.

(* ----------------------------------------------------------------- *)
(** ** The tokens of [split(/(\s+)/)] *)

Lemma no_ws_snoc (w : jsstring) (c : code_unit) :
  no_ws w = true -> is_ws c = false -> no_ws (w ++ [c]) = true.
Proof.
  unfold no_ws. intros Hw Hc. rewrite forallb_app, Hw. simpl. now rewrite Hc.
Qed.

Lemma all_ws_snoc (r : jsstring) (c : code_unit) :
  all_ws r = true -> is_ws c = true -> all_ws (r ++ [c]) = true.
Proof.
  unfold all_ws. intros Hr Hc. rewrite forallb_app, Hr. simpl. now rewrite Hc.
Qed.

Lemma nonempty_snoc (w : jsstring) (c : code_unit) : nonempty (w ++ [c]) = true.
Proof. now destruct w. Qed.

Lemma tokens_ok_cons2 first w r rest :
  tokens_ok first (w :: r :: rest)
  = no_ws w && (first || nonempty w) && nonempty r && all_ws r
    && tokens_ok false rest.
Proof. reflexivity. Qed.

Lemma scan_tokens_ok (s : jsstring) :
  (forall w first, no_ws w = true -> first || nonempty w = true ->
                   tokens_ok first (scan_word w s) = true)
  /\ (forall r w first, all_ws r = true -> nonempty r = true ->
                        no_ws w = true -> first || nonempty w = true ->
                        tokens_ok first (w :: scan_space r s) = true).
Proof.
  induction s as [|c s [IHw IHs]]; split.
  - intros w first Hw _. exact Hw.
  - intros r w first Hr Hr' Hw Hf.
    cbn [scan_space]. rewrite tokens_ok_cons2, Hw, Hf, Hr, Hr'. reflexivity.
  - intros w first Hw Hf. cbn [scan_word].
    destruct (is_ws c) eqn:E.
    + apply IHs; try assumption; [|reflexivity].
      unfold all_ws. simpl. now rewrite E.
    + apply IHw; [now apply no_ws_snoc|].
      rewrite nonempty_snoc. apply orb_true_r.
  - intros r w first Hr Hr' Hw Hf. cbn [scan_space].
    destruct (is_ws c) eqn:E.
    + apply IHs; try assumption; [now apply all_ws_snoc|apply nonempty_snoc].
    + rewrite tokens_ok_cons2, Hw, Hf, Hr, Hr'. cbn [andb].
      apply IHw; [|reflexivity].
      unfold no_ws. simpl. now rewrite E.
Qed.

Lemma split_ws_tokens_ok (text : jsstring) :
  tokens_ok true (split_ws text) = true.
Proof. apply (proj1 (scan_tokens_ok text)); reflexivity. Qed.

Lemma tokens_ok_odd_bounded (n : nat) : forall first tokens,
  (length tokens <= n)%nat ->
  tokens_ok first tokens = true -> Nat.odd (length tokens) = true.
Proof.
  induction n as [|n IH]; intros first tokens Hn H.
  - destruct tokens; [discriminate H|simpl in Hn; lia].
  - destruct tokens as [|w [|r rest]]; [discriminate|reflexivity|].
    rewrite tokens_ok_cons2 in H.
    apply andb_true_iff in H. destruct H as [_ H].
    change (length (w :: r :: rest)) with (S (S (length rest))).
    rewrite Nat.odd_succ_succ.
    apply (IH false rest); [simpl in Hn; lia|exact H].
Qed.

Lemma tokens_ok_odd first tokens :
  tokens_ok first tokens = true -> Nat.odd (length tokens) = true.
Proof. apply (tokens_ok_odd_bounded (n := length tokens)). lia. Qed.

(** X4. The tokens of [text.split(/(\s+)/)] alternate: a token without
    white space, then a non-empty run of white space, and so on, ending
    with a token without white space; a token without white space is
    empty only in the first or the last place.  So the number of tokens
    is odd, and never zero. *)
Theorem split_ws_alternates (text : jsstring) :
  tokens_ok true (split_ws text) = true
  /\ Nat.odd (length (split_ws text)) = true.
Proof.
  split; [apply split_ws_tokens_ok|].
  apply tokens_ok_odd with (first := true), split_ws_tokens_ok.
Qed.

Lemma scan_word_no_ws (s w : jsstring) :
  no_ws s = true -> scan_word w s = [w ++ s].
Proof.
  revert w. induction s as [|c s IH]; intros w H.
  - now rewrite app_nil_r.
  - unfold no_ws in H. simpl in H. apply andb_true_iff in H.
    destruct H as [Hc Hs]. apply negb_true_iff in Hc.
    cbn [scan_word]. rewrite Hc, (IH (w ++ [c]) Hs), <- app_assoc.
    reflexivity.
Qed.

(** X5. A text is its own single token exactly when it holds no white
    space (the empty text included). *)
Theorem split_ws_single_token (text : jsstring) :
  split_ws text = [text] <-> no_ws text = true.
Proof.
  split.
  - intro H. pose proof (split_ws_tokens_ok text) as T.
    rewrite H in T. exact T.
  - intro H. unfold split_ws. now rewrite (@scan_word_no_ws text [] H).
Qed.

(* ----------------------------------------------------------------- *)
(** ** highlightDifferences *)

Lemma str_eqb_eq (a b : jsstring) : str_eqb a b = true <-> a = b.
Proof.
  revert b. induction a as [|x a IH]; intros [|y b]; simpl;
    try (split; (reflexivity || discriminate)).
  rewrite andb_true_iff, N.eqb_eq, IH.
  split; [intros [-> ->]; reflexivity|intro H; injection H; auto].
Qed.

Lemma str_eqb_refl (a : jsstring) : str_eqb a a = true.
Proof. now apply str_eqb_eq. Qed.

Lemma positions_concat (g : jsstring -> jsstring) (words : list jsstring) :
  g [] = [] -> forall n, (length words <= n)%nat ->
  concat (map (fun i => g (word_at words i)) (seq 0 n))
  = concat (map g words).
Proof.
  intro Hg. induction words as [|w words IH]; intros n Hn.
  - clear Hn. generalize 0%nat as a.
    induction n as [|n IHn]; intro a; [reflexivity|].
    cbn [seq map concat]. rewrite IHn, word_at_nth.
    destruct a; simpl; now rewrite Hg.
  - destruct n as [|n]; [simpl in Hn; lia|].
    cbn [seq map concat].
    rewrite <- seq_shift, map_map.
    rewrite <- (IH n) by (simpl in Hn; lia).
    f_equal. rewrite word_at_nth. reflexivity.
Qed.

Lemma same_words_pieces (words : list jsstring) (i : nat) :
  piece1 words words i = escapeHtml (word_at words i)
  /\ piece2 words words i = escapeHtml (word_at words i).
Proof. unfold piece1, piece2. now rewrite str_eqb_refl. Qed.

Lemma highlight_same (text : jsstring) :
  highlightDifferences text text = (escapeHtml text, escapeHtml text).
Proof.
  rewrite highlight_pieces. rewrite Nat.max_id.
  rewrite (map_ext _ (fun i => escapeHtml (word_at (split_ws text) i)))
    by (intro i; apply same_words_pieces).
  rewrite (map_ext (piece2 _ _)
             (fun i => escapeHtml (word_at (split_ws text) i)))
    by (intro i; apply same_words_pieces).
  now rewrite escaped_words_concat, concat_split_ws by lia.
Qed.

(** X6. A text compared with itself gives two identical outputs, each the
    escaped text, with no marker. *)
Theorem highlight_same_text_unmarked (text : jsstring) :
  highlightDifferences text text = (escapeHtml text, escapeHtml text)
  /\ strip_markers (escapeHtml text) = escapeHtml text.
Proof.
  split; [apply highlight_same|].
  rewrite <- (app_nil_r (escapeHtml text)) at 1.
  rewrite strip_plain by apply escapeHtml_no_lt.
  now rewrite app_nil_r.
Qed.

Lemma tag_free_concat (parts : list jsstring) :
  tag_free (concat parts) = true ->
  forall p, In p parts -> tag_free p = true.
Proof.
  unfold tag_free. induction parts as [|q parts IH]; intros H p Hp.
  - destruct Hp.
  - cbn [concat] in H. rewrite forallb_app in H.
    apply andb_true_iff in H. destruct H as [Hq Hps].
    destruct Hp as [<-|Hp]; [exact Hq|now apply IH].
Qed.

Lemma tag_free_pieces_same_word words1 words2 i :
  tag_free (piece1 words1 words2 i) = true ->
  tag_free (piece2 words1 words2 i) = true ->
  word_at words1 i = word_at words2 i.
Proof.
  unfold piece1, piece2.
  destruct (str_eqb (word_at words1 i) (word_at words2 i)) eqn:E.
  - intros _ _. now apply str_eqb_eq.
  - cbn [negb].
    destruct (word_at words1 i) as [|c1 w1]; [|discriminate].
    destruct (word_at words2 i) as [|c2 w2]; [discriminate|].
    cbn [nonempty]. intros _ H. discriminate H.
Qed.

(** X7. The two outputs hold no tag, hence no marker, exactly when the
    two texts are equal: any difference is marked in one output at least. *)
Theorem highlight_unmarked_iff_equal (text1 text2 : jsstring) :
  tag_free (fst (highlightDifferences text1 text2))
  && tag_free (snd (highlightDifferences text1 text2)) = true
  <-> text1 = text2.
Proof.
  split.
  - rewrite highlight_pieces. cbn [fst snd].
    set (words1 := split_ws text1). set (words2 := split_ws text2).
    set (n := Nat.max (length words1) (length words2)).
    intro H. apply andb_true_iff in H. destruct H as [H1 H2].
    assert (Hw : map (fun i => word_at words1 i) (seq 0 n)
                 = map (fun i => word_at words2 i) (seq 0 n)).
    { apply map_ext_in. intros i Hi.
      apply tag_free_pieces_same_word.
      - apply (tag_free_concat _ H1). now apply in_map.
      - apply (tag_free_concat _ H2). now apply in_map. }
    rewrite <- (concat_split_ws text1), <- (concat_split_ws text2).
    fold words1 words2.
    rewrite <- (map_id words1), <- (map_id words2).
    rewrite <- (@positions_concat (fun w => w) words1 eq_refl n)
      by (unfold n; lia).
    rewrite <- (@positions_concat (fun w => w) words2 eq_refl n)
      by (unfold n; lia).
    now rewrite Hw.
  - intros <-. rewrite highlight_same. cbn [fst snd].
    unfold tag_free. now rewrite escapeHtml_no_lt.
Qed.

Lemma word_at_empty_text (i : nat) : word_at (split_ws []) i = [].
Proof. destruct i as [|[|i]]; reflexivity. Qed.

Lemma str_eqb_nil_r (w : jsstring) : str_eqb w [] = negb (nonempty w).
Proof. now destruct w. Qed.

Lemma str_eqb_nil_l (w : jsstring) : str_eqb [] w = negb (nonempty w).
Proof. now destruct w. Qed.

Lemma pieces_against_empty_right words i :
  piece1 words (split_ws []) i = marked removed_open (word_at words i)
  /\ piece2 words (split_ws []) i = [].
Proof.
  unfold piece1, piece2, marked. rewrite word_at_empty_text, str_eqb_nil_r.
  now destruct (word_at words i).
Qed.

Lemma pieces_against_empty_left words i :
  piece1 (split_ws []) words i = []
  /\ piece2 (split_ws []) words i = marked added_open (word_at words i).
Proof.
  unfold piece1, piece2, marked. rewrite word_at_empty_text, str_eqb_nil_l.
  now destruct (word_at words i).
Qed.

Lemma concat_nils (l : list nat) :
  concat (@map nat jsstring (fun _ => []) l) = [].
Proof. induction l as [|i l IH]; [reflexivity|exact IH]. Qed.

(** X8. Against the empty text, every non-empty token of the other text,
    white-space runs included, is wrapped in a marker (removed on the
    first side, added on the second), and the output of the empty side is
    empty. *)
Theorem highlight_against_empty (text : jsstring) :
  highlightDifferences text []
  = (concat (map (marked removed_open) (split_ws text)), [])
  /\ highlightDifferences [] text
     = ([], concat (map (marked added_open) (split_ws text))).
Proof.
  split; rewrite highlight_pieces.
  - rewrite (map_ext _ (fun i => marked removed_open
                                   (word_at (split_ws text) i)))
      by (intro i; apply pieces_against_empty_right).
    rewrite (@map_ext nat jsstring (piece2 _ _) (fun _ => []))
      by (intro i; apply pieces_against_empty_right).
    rewrite concat_nils.
    now rewrite (@positions_concat (marked removed_open) (split_ws text)
                   eq_refl) by lia.
  - rewrite (@map_ext nat jsstring (piece1 _ _) (fun _ => []))
      by (intro i; apply pieces_against_empty_left).
    rewrite (map_ext (piece2 _ _)
               (fun i => marked added_open (word_at (split_ws text) i)))
      by (intro i; apply pieces_against_empty_left).
    rewrite concat_nils.
    now rewrite (@positions_concat (marked added_open) (split_ws text)
                   eq_refl) by lia.
Qed.

(* ----------------------------------------------------------------- *)
(** ** The response parser of callModel *)

Section ParserOutcomes.

Variable number_to_string : float -> jsstring.

(** X9. The parser has four outcomes, decided by the payload alone: a
    [TypeError] for [null] (reading [data.choices] throws); the error
    "Unexpected response format" when neither guard passes; a
    [TypeError] when only the Anthropic guard passes and the sum of its
    two counts throws (a count that is an object with an own [toString]);
    and a record otherwise, which carries the response time it was
    given. *)
Theorem normalize_outcomes rt raw :
  (nullish raw = true /\ normalize number_to_string rt raw = Throw TypeError)
  \/ (nullish raw = false /\ openai_shaped raw = false
      /\ anthropic_shaped raw = false
      /\ normalize number_to_string rt raw = Throw unexpected_format)
  \/ (nullish raw = false /\ openai_shaped raw = false
      /\ anthropic_shaped raw = true /\ counts_addable raw = false
      /\ normalize number_to_string rt raw = Throw TypeError)
  \/ (nullish raw = false
      /\ (openai_shaped raw = true
          \/ (anthropic_shaped raw = true /\ counts_addable raw = true))
      /\ exists r, normalize number_to_string rt raw = Ok r
                   /\ responseTime r = rt).
Proof.
  rewrite normalize_shape. unfold normalize_by_shape.
  destruct (nullish raw); [left; now split|right].
  destruct (openai_shaped raw).
  - right. right. split; [reflexivity|]. split; [now left|].
    eexists. split; reflexivity.
  - destruct (anthropic_shaped raw); [|left; now repeat split].
    right. unfold counts_addable.
    destruct (add_outcome number_to_string
                (count_or_zero (prop raw usage) input_tokens)
                (count_or_zero (prop raw usage) output_tokens))
      as [[Hs [total E]]|[Hs E]]; rewrite Hs, E.
    + right. split; [reflexivity|]. split; [right; now split|].
      eexists. split; reflexivity.
    + left. now repeat split.
Qed.

(** X10. A record built by the Anthropic branch has a truthy content: the
    guard tests the text itself, so the content is never the empty
    string, [null] or [undefined] there.  The OpenAI branch gives no such
    guarantee. *)
Theorem normalize_anthropic_content_truthy rt raw r :
  openai_shaped raw = false ->
  normalize number_to_string rt raw = Ok r ->
  truthy (content r) = true.
Proof.
  intros HA. rewrite normalize_shape. unfold normalize_by_shape.
  destruct (nullish raw); [discriminate|]. rewrite HA.
  destruct (anthropic_shaped raw) eqn:HB; [|discriminate].
  destruct (add number_to_string
              (count_or_zero (prop raw usage) input_tokens)
              (count_or_zero (prop raw usage) output_tokens))
    as [total|e]; [|discriminate].
  cbn [bind]. intro H. injection H as <-. cbn [content].
  unfold anthropic_shaped in HB.
  apply andb_true_iff in HB. now destruct HB.
Qed.

Lemma same_anthropic_fields_result rt raw raw' :
  same_anthropic_fields raw raw' ->
  anthropic_result number_to_string rt raw'
  = anthropic_result number_to_string rt raw.
Proof.
  intros [Hc [Hu Hk]]. unfold anthropic_result, count_or_zero.
  rewrite Hc, Hu, !Hk by (simpl; auto).
  reflexivity.
Qed.

(** X11. In the Anthropic branch the outcome, a record or the
    [TypeError] of the sum, is a function of the [content] list and of
    the counts [input_tokens] and [output_tokens]: a payload that differs
    only elsewhere (a [total_tokens] or [prompt_tokens] in the usage
    object, say) and does not pass the OpenAI guard either has the same
    outcome, so an upstream total is never used there. *)
Theorem normalize_anthropic_reads rt raw raw' :
  openai_shaped raw = false ->
  anthropic_shaped raw = true ->
  openai_shaped raw' = false ->
  nullish raw' = false ->
  same_anthropic_fields raw raw' ->
  normalize number_to_string rt raw = anthropic_result number_to_string rt raw
  /\ normalize number_to_string rt raw' = normalize number_to_string rt raw.
Proof.
  intros HA HB HA' Hn' Hsame.
  assert (Hn : nullish raw = false).
  { destruct raw; try reflexivity; discriminate HB. }
  assert (E : normalize number_to_string rt raw
              = anthropic_result number_to_string rt raw).
  { rewrite normalize_shape. unfold normalize_by_shape.
    now rewrite Hn, HA, HB. }
  split; [exact E|].
  rewrite E, <- (same_anthropic_fields_result rt Hsame).
  rewrite normalize_shape. unfold normalize_by_shape.
  destruct Hsame as [Hc _].
  assert (HB' : anthropic_shaped raw' = true)
    by (unfold anthropic_shaped in *; now rewrite Hc).
  now rewrite Hn', HA', HB'.
Qed.

Lemma normalize_responseTime rt data r :
  normalize number_to_string rt data = Ok r -> responseTime r = rt.
Proof.
  rewrite normalize_shape. unfold normalize_by_shape.
  destruct (nullish data); [discriminate|].
  destruct (openai_shaped data); [intro H; now injection H as <-|].
  destruct (anthropic_shaped data); [|discriminate].
  destruct (add number_to_string
              (count_or_zero (prop data usage) input_tokens)
              (count_or_zero (prop data usage) output_tokens))
    as [total|e]; [|discriminate].
  cbn [bind]. intro H. now injection H as <-.
Qed.

End ParserOutcomes.

Lemma normalize_anthropic_content_truthy_witness :
  openai_shaped anthropic_example = false
  /\ truthy (str "hi") = true.
Proof.
  split; [reflexivity|].
  exact (@normalize_anthropic_content_truthy example_engine 0
           anthropic_example (example_record 0) eq_refl eq_refl).
Defined.

Lemma normalize_anthropic_reads_witness :
  openai_shaped anthropic_example = false
  /\ anthropic_shaped anthropic_example = true
  /\ openai_shaped anthropic_with_total = false
  /\ nullish anthropic_with_total = false
  /\ same_anthropic_fields anthropic_example anthropic_with_total
  /\ normalize example_engine 0 anthropic_example
     = anthropic_result example_engine 0 anthropic_example
  /\ normalize example_engine 0 anthropic_with_total
     = normalize example_engine 0 anthropic_example.
Proof.
  assert (S : same_anthropic_fields anthropic_example anthropic_with_total).
  { split; [reflexivity|]. split; [reflexivity|].
    intros k [<-|[<-|[]]]; reflexivity. }
  repeat (split; [reflexivity|]).
  split; [exact S|].
  exact (@normalize_anthropic_reads example_engine 0 anthropic_example
           anthropic_with_total eq_refl eq_refl eq_refl eq_refl S).
Defined.

(* ----------------------------------------------------------------- *)
(** ** callModel, displayError and compareResponses *)

(** X12. [callModel] issues exactly one request, whatever the outcome,
    and it returns a record only when the response reports success and
    its body decodes to a payload the parser accepts; the record then
    carries the elapsed time of that request. *)
Theorem callModel_success number_to_string transport
    endpoint apiKey model_ prompt_ :
  fst (callModel number_to_string transport endpoint apiKey model_ prompt_)
  = [Fetch (request_of endpoint apiKey model_ prompt_)]
  /\ forall r,
       snd (callModel number_to_string transport
              endpoint apiKey model_ prompt_) = Ok r ->
       exists resp data,
         transport (request_of endpoint apiKey model_ prompt_)
         = (responseTime r, Ok resp)
         /\ ok resp = true
         /\ json resp = Ok data
         /\ normalize number_to_string (responseTime r) data = Ok r.
Proof.
  split; [apply callModel_request|].
  intros r H.
  unfold callModel in H. fold (request_of endpoint apiKey model_ prompt_) in H.
  destruct (transport (request_of endpoint apiKey model_ prompt_))
    as [rt fetched].
  cbn [snd] in H.
  destruct fetched as [resp|e]; [|discriminate H]. cbn [bind] in H.
  destruct (ok resp) eqn:Eok; [|discriminate H]. cbn [negb] in H.
  destruct (json resp) as [data|e] eqn:Ej; [|discriminate H]. cbn [bind] in H.
  pose proof (normalize_responseTime _ _ _ H) as Et. subst rt.
  exists resp, data. now repeat split.
Qed.

Lemma callModel_success_witness :
  snd (callModel example_engine
         (constant_transport 120 (ok_response openai_example))
         (lit "https://a.example/v1") (lit "k1") (lit "m1") (lit "hello"))
  = Ok (example_record 120)
  /\ exists resp data,
       constant_transport 120 (ok_response openai_example)
         (request_of (lit "https://a.example/v1") (lit "k1") (lit "m1")
                     (lit "hello"))
       = (120%float, Ok resp)
       /\ ok resp = true
       /\ json resp = Ok data
       /\ normalize example_engine 120 data = Ok (example_record 120).
Proof.
  split; [reflexivity|].
  exact (proj2 (@callModel_success example_engine
                  (constant_transport 120 (ok_response openai_example))
                  (lit "https://a.example/v1") (lit "k1") (lit "m1")
                  (lit "hello"))
               (example_record 120) eq_refl).
Defined.

Lemma panel_after_app (id : jsstring) (t1 t2 : list event) :
  panel_after id (t1 ++ t2)
  = match panel_after id t2 with
    | Some c => Some c
    | None => panel_after id t1
    end.
Proof.
  induction t1 as [|e t1 IH]; cbn [app panel_after].
  - now destruct (panel_after id t2).
  - rewrite IH. now destruct (panel_after id t2).
Qed.

Lemma display_after_app (id : jsstring) (t1 t2 : list event) :
  display_after id (t1 ++ t2)
  = match display_after id t2 with
    | Some d => Some d
    | None => display_after id t1
    end.
Proof.
  induction t1 as [|e t1 IH]; cbn [app display_after].
  - now destruct (display_after id t2).
  - rewrite IH. now destruct (display_after id t2).
Qed.

Lemma error_shown_after (message_ : jsstring) (before after : list event) :
  (forall id, panel_after id after = None) ->
  display_after (lit "results") after = None ->
  error_shown message_ (before ++ displayError message_ ++ after).
Proof.
  intros Hp Hd. unfold error_shown.
  rewrite !panel_after_app, !display_after_app, !Hp, Hd.
  repeat split.
Qed.

(** X13. After [displayError message], whatever the page showed before,
    both metrics panels and the second response panel are empty, the
    first response panel holds the template of the error with the message
    as it was given, and the results are visible. *)
Theorem displayError_final (message_ : jsstring) (before : list event) :
  error_shown message_ (before ++ displayError message_).
Proof.
  rewrite <- (app_nil_r (displayError message_)).
  now apply error_shown_after.
Qed.

(** The template of the error, on the message "x". *)
Example error_panel_text :
  error_panel (lit "x")
  = [10%N] ++ repeat 32%N 16 ++ lit "<div class=" ++ [QUOT] ++ lit "error"
    ++ [QUOT] ++ lit ">"
    ++ [10%N] ++ repeat 32%N 20 ++ lit "<strong>Error:</strong> x"
    ++ [10%N] ++ repeat 32%N 16 ++ lit "</div>"
    ++ [10%N] ++ repeat 32%N 12.
Proof. reflexivity. Qed.

Section Outcomes.

Variable number_to_string : float -> jsstring.
Variable transport : request -> float * result response.
Variable engine_message : exn -> jsstring.
Variable second_rejects_first : bool.

Lemma filled_not_empty (f : form) :
  filled f = true ->
  empty (endpoint1 f) || empty (endpoint2 f)
  || empty (apikey1 f) || empty (apikey2 f)
  || empty (model1 f) || empty (model2 f) || empty (prompt f) = false.
Proof.
  unfold filled, empty. intro H.
  repeat (apply andb_true_iff in H; destruct H as [H ?]).
  repeat match goal with E : nonempty _ = true |- _ => rewrite E; clear E end.
  reflexivity.
Qed.

Lemma compare_filled_trace (f : form) :
  filled f = true ->
  compareResponses number_to_string transport engine_message
                   second_rejects_first f
  = opening f
    ++ settled number_to_string engine_message f
         (all_ second_rejects_first (first_call number_to_string transport f)
               (second_call number_to_string transport f))
    ++ [SetDisplay (lit "loading") (lit "none")].
Proof.
  intro H. unfold compareResponses, first_call, second_call.
  rewrite (filled_not_empty f H).
  pose proof (callModel_request number_to_string transport
                (endpoint1 f) (apikey1 f) (model1 f) (prompt f)) as C1.
  pose proof (callModel_request number_to_string transport
                (endpoint2 f) (apikey2 f) (model2 f) (prompt f)) as C2.
  destruct (callModel number_to_string transport
              (endpoint1 f) (apikey1 f) (model1 f) (prompt f))
    as [sent1 r1].
  destruct (callModel number_to_string transport
              (endpoint2 f) (apikey2 f) (model2 f) (prompt f))
    as [sent2 r2].
  cbn [fst snd] in *. subst sent1 sent2. reflexivity.
Qed.

Lemma settled_requests (f : form) both :
  requests (settled number_to_string engine_message f both) = [].
Proof.
  destruct both as [[a b]|e]; [|reflexivity].
  unfold settled.
  pose proof (displayResults_requests number_to_string a b
                (model1 f) (model2 f) (highlightToggle f)) as D.
  destruct (displayResults number_to_string a b (model1 f) (model2 f)
              (highlightToggle f)) as [shown thrown].
  cbn [fst] in D. rewrite requests_app, D.
  now destruct thrown.
Qed.

(** X14. With the seven fields filled in, [compareResponses] first shows
    the loading indicator and hides the results, then issues the two
    requests, the first model's before the second's, each a POST of JSON
    with the bearer token and the shared prompt; nothing after that
    issues a request, and the last thing done, in every outcome, is to
    hide the loading indicator. *)
Theorem compare_trace_shape (f : form) :
  filled f = true ->
  exists rest,
    compareResponses number_to_string transport engine_message
                     second_rejects_first f
    = opening f ++ rest ++ [SetDisplay (lit "loading") (lit "none")]
    /\ requests rest = [].
Proof.
  intro H. eexists. split; [apply (compare_filled_trace f H)|].
  apply settled_requests.
Qed.

Lemma failure_state (f : form) (e : exn) :
  error_shown (comparing engine_message e) (failure_trace engine_message f e)
  /\ display_after (lit "loading") (failure_trace engine_message f e)
     = Some (lit "none").
Proof.
  split; [|reflexivity].
  unfold failure_trace. rewrite app_assoc.
  apply (error_shown_after (comparing engine_message e));
    [intro id; reflexivity|reflexivity].
Qed.

Lemma rejected_trace (f : form) (e : exn) :
  filled f = true ->
  all_ second_rejects_first (first_call number_to_string transport f)
       (second_call number_to_string transport f)
  = Throw e ->
  compareResponses number_to_string transport engine_message
                   second_rejects_first f
  = failure_trace engine_message f e.
Proof.
  intros H E. rewrite (compare_filled_trace f H), E. reflexivity.
Qed.

(** X15. When either call is rejected, nothing of a result is shown: the
    whole trace is the opening (indicator, two requests), the log of the
    rejection that [Promise.all] reports (the one that comes first when
    both calls are rejected), [displayError] with
    "Error comparing responses: " and its message, and the hiding of the
    indicator.  So no metrics and no response text are written, the
    error panel is shown, and a record the other call returned is not
    used. *)
Theorem compare_rejected (f : form) :
  filled f = true ->
  (exists e1, first_call number_to_string transport f = Throw e1)
  \/ (exists e2, second_call number_to_string transport f = Throw e2) ->
  let trace :=
    compareResponses number_to_string transport engine_message
                     second_rejects_first f in
  exists e,
    (first_call number_to_string transport f = Throw e
     \/ second_call number_to_string transport f = Throw e)
    /\ trace = failure_trace engine_message f e
    /\ error_shown (comparing engine_message e) trace
    /\ display_after (lit "loading") trace = Some (lit "none").
Proof.
  intros H Hr trace.
  assert (E : exists e,
             (first_call number_to_string transport f = Throw e
              \/ second_call number_to_string transport f = Throw e)
             /\ all_ second_rejects_first
                     (first_call number_to_string transport f)
                     (second_call number_to_string transport f) = Throw e).
  { unfold all_.
    destruct (first_call number_to_string transport f) as [a|e1],
             (second_call number_to_string transport f) as [b|e2].
    - destruct Hr as [[e Hr]|[e Hr]]; discriminate Hr.
    - exists e2. split; [now right|reflexivity].
    - exists e1. split; [now left|reflexivity].
    - destruct second_rejects_first.
      + exists e2. split; [now right|reflexivity].
      + exists e1. split; [now left|reflexivity]. }
  destruct E as [e [Hwho Hall]].
  exists e. split; [exact Hwho|].
  pose proof (rejected_trace f H Hall) as T. fold trace in T.
  split; [exact T|]. rewrite T. apply failure_state.
Qed.

(** X16. When the first endpoint answers with a status that is no
    success and the second call returns a record, the error panel shows
    "Error comparing responses: HTTP <status>: <statusText>", the status
    as the engine writes the number, whatever the body of the failed
    response is; the trace is that of a failure, so the record of the
    second call is shown nowhere. *)
Theorem compare_http_error (f : form) rt resp r2 :
  filled f = true ->
  transport (request_of (endpoint1 f) (apikey1 f) (model1 f) (prompt f))
  = (rt, Ok resp) ->
  ok resp = false ->
  second_call number_to_string transport f = Ok r2 ->
  let trace :=
    compareResponses number_to_string transport engine_message
                     second_rejects_first f in
  let e := Error (lit "HTTP " ++ number_to_string (status resp)
                  ++ lit ": " ++ statusText resp) in
  trace = failure_trace engine_message f e
  /\ error_shown (lit "Error comparing responses: HTTP "
                  ++ number_to_string (status resp) ++ lit ": "
                  ++ statusText resp) trace.
Proof.
  intros H Ht Hok H2 trace e.
  assert (H1 : first_call number_to_string transport f = Throw e).
  { unfold first_call, callModel.
    fold (request_of (endpoint1 f) (apikey1 f) (model1 f) (prompt f)).
    rewrite Ht. cbn [snd bind]. now rewrite Hok. }
  assert (Hall : all_ second_rejects_first
                      (first_call number_to_string transport f)
                      (second_call number_to_string transport f) = Throw e)
    by now rewrite H1, H2.
  pose proof (rejected_trace f H Hall) as T. fold trace in T.
  split; [exact T|]. rewrite T.
  exact (proj1 (failure_state f e)).
Qed.

(** X17. When both calls return a record, the metrics markup of both can
    be built, both contents convert to text and highlighting is off, each
    metrics panel holds the markup of its model and each response panel
    holds the text of its record's content, written as text and not as
    markup; the results are visible, the loading indicator is hidden and
    nothing is logged as an error. *)
Theorem compare_shows_plain (f : form) r1 r2 m1 m2 t1 t2 :
  filled f = true ->
  first_call number_to_string transport f = Ok r1 ->
  second_call number_to_string transport f = Ok r2 ->
  highlightToggle f = false ->
  metrics_markup number_to_string (model1 f) r1 = Ok m1 ->
  metrics_markup number_to_string (model2 f) r2 = Ok m2 ->
  text_of number_to_string (content r1) = Ok t1 ->
  text_of number_to_string (content r2) = Ok t2 ->
  let trace :=
    compareResponses number_to_string transport engine_message
                     second_rejects_first f in
  panel_after (lit "metrics1") trace = Some (Html m1)
  /\ panel_after (lit "metrics2") trace = Some (Html m2)
  /\ panel_after (lit "response1") trace = Some (PlainText t1)
  /\ panel_after (lit "response2") trace = Some (PlainText t2)
  /\ display_after (lit "results") trace = Some (lit "block")
  /\ display_after (lit "loading") trace = Some (lit "none")
  /\ forall e, ~ In (ConsoleError e) trace.
Proof.
  intros H H1 H2 Hh M1 M2 T1 T2 trace. subst trace.
  rewrite (compare_filled_trace f H), H1, H2.
  unfold all_, settled, displayResults. rewrite Hh, M1, M2, T1, T2.
  repeat (split; [reflexivity|]).
  intros e Hin. cbn in Hin.
  repeat (destruct Hin as [Hin|Hin]; [discriminate Hin|]). exact Hin.
Qed.

(** X18. When both calls return a record whose content is a string, the
    metrics markup of both can be built and highlighting is on, the
    response panels hold, as markup, the two outputs of
    [highlightDifferences] on the two contents, in that order; the
    metrics panels hold the metrics markup, the results are visible and
    the loading indicator is hidden. *)
Theorem compare_shows_highlighted (f : form) r1 r2 m1 m2 text1 text2 :
  filled f = true ->
  first_call number_to_string transport f = Ok r1 ->
  second_call number_to_string transport f = Ok r2 ->
  highlightToggle f = true ->
  metrics_markup number_to_string (model1 f) r1 = Ok m1 ->
  metrics_markup number_to_string (model2 f) r2 = Ok m2 ->
  content r1 = VStr text1 ->
  content r2 = VStr text2 ->
  let trace :=
    compareResponses number_to_string transport engine_message
                     second_rejects_first f in
  panel_after (lit "metrics1") trace = Some (Html m1)
  /\ panel_after (lit "metrics2") trace = Some (Html m2)
  /\ panel_after (lit "response1") trace
     = Some (Html (fst (highlightDifferences text1 text2)))
  /\ panel_after (lit "response2") trace
     = Some (Html (snd (highlightDifferences text1 text2)))
  /\ display_after (lit "results") trace = Some (lit "block")
  /\ display_after (lit "loading") trace = Some (lit "none").
Proof.
  intros H H1 H2 Hh M1 M2 C1 C2 trace. subst trace.
  rewrite (compare_filled_trace f H), H1, H2.
  unfold all_, settled, displayResults. rewrite Hh, M1, M2, C1, C2.
  cbn [as_text bind].
  destruct (highlightDifferences text1 text2) as [h1 h2].
  repeat split.
Qed.

(** X19. When both calls return a record, the metrics markup of both can
    be built, highlighting is on and the content of one record is no
    string (a [null] content of the OpenAI branch, say), the metrics are
    written, then the split of that content throws: the [TypeError] is
    logged, the error panel is shown, the metrics panels are emptied
    again and the loading indicator is hidden. *)
Theorem compare_highlight_needs_strings (f : form) r1 r2 m1 m2 :
  filled f = true ->
  first_call number_to_string transport f = Ok r1 ->
  second_call number_to_string transport f = Ok r2 ->
  highlightToggle f = true ->
  metrics_markup number_to_string (model1 f) r1 = Ok m1 ->
  metrics_markup number_to_string (model2 f) r2 = Ok m2 ->
  is_string (content r1) && is_string (content r2) = false ->
  let trace :=
    compareResponses number_to_string transport engine_message
                     second_rejects_first f in
  trace
  = (opening f
     ++ [SetInnerHTML (lit "metrics1") m1;
         SetInnerHTML (lit "metrics2") m2;
         ConsoleError TypeError])
    ++ displayError (comparing engine_message TypeError)
    ++ [SetDisplay (lit "loading") (lit "none")]
  /\ error_shown (comparing engine_message TypeError) trace
  /\ display_after (lit "loading") trace = Some (lit "none").
Proof.
  intros H H1 H2 Hh M1 M2 Hs trace.
  assert (T : trace
              = (opening f
                 ++ [SetInnerHTML (lit "metrics1") m1;
                     SetInnerHTML (lit "metrics2") m2;
                     ConsoleError TypeError])
                ++ displayError (comparing engine_message TypeError)
                ++ [SetDisplay (lit "loading") (lit "none")]).
  { subst trace.
    rewrite (compare_filled_trace f H), H1, H2.
    unfold all_, settled, displayResults. rewrite Hh, M1, M2.
    destruct (content r1) as [| | | |s1| |];
      try reflexivity.
    destruct (content r2) as [| | | |s2| |];
      try reflexivity.
    discriminate Hs. }
  split; [exact T|]. rewrite T. split.
  - apply error_shown_after; [intro id; reflexivity|reflexivity].
  - reflexivity.
Qed.

(** X20. When both calls return a record and a count of the first
    record cannot be written as a string (an object with an own
    [toString], which the parser stores as it is), building the metrics
    markup throws before anything is written: the trace is that of a
    failure, with nothing of either record shown, whether highlighting
    is on or off. *)
Theorem compare_unprintable_count (f : form) r1 r2 e :
  filled f = true ->
  first_call number_to_string transport f = Ok r1 ->
  second_call number_to_string transport f = Ok r2 ->
  metrics_markup number_to_string (model1 f) r1 = Throw e ->
  let trace :=
    compareResponses number_to_string transport engine_message
                     second_rejects_first f in
  e = TypeError
  /\ trace = failure_trace engine_message f e
  /\ error_shown (comparing engine_message e) trace.
Proof.
  intros H H1 H2 M1 trace.
  assert (He : e = TypeError).
  { unfold metrics_markup in M1.
    destruct (to_string_outcome number_to_string (promptTokens r1))
      as [[_ [s1 E1]]|[_ E1]]; rewrite E1 in M1; cbn [bind] in M1;
      [|congruence].
    destruct (to_string_outcome number_to_string (completionTokens r1))
      as [[_ [s2 E2]]|[_ E2]]; rewrite E2 in M1; cbn [bind] in M1;
      [|congruence].
    destruct (to_string_outcome number_to_string (totalTokens r1))
      as [[_ [s3 E3]]|[_ E3]]; rewrite E3 in M1; cbn [bind] in M1;
      [discriminate M1|congruence]. }
  split; [exact He|].
  assert (T : trace = failure_trace engine_message f e).
  { subst trace.
    rewrite (compare_filled_trace f H), H1, H2.
    unfold all_, settled, displayResults. now rewrite M1. }
  split; [exact T|]. rewrite T. exact (proj1 (failure_state f e)).
Qed.

End Outcomes.

Lemma compare_trace_shape_witness :
  filled (filled_form true) = true
  /\ exists rest,
       compareResponses example_engine refusing_transport silent_engine false
                        (filled_form true)
       = opening (filled_form true) ++ rest
         ++ [SetDisplay (lit "loading") (lit "none")]
       /\ requests rest = [].
Proof.
  split; [reflexivity|].
  exact (@compare_trace_shape example_engine refusing_transport
           silent_engine false (filled_form true) eq_refl).
Defined.

Lemma compare_rejected_witness :
  first_call example_engine refusing_transport (filled_form true)
  = Throw (Error (lit "Failed to fetch"))
  /\ exists e,
       (first_call example_engine refusing_transport (filled_form true)
        = Throw e
        \/ second_call example_engine refusing_transport (filled_form true)
           = Throw e)
       /\ compareResponses example_engine refusing_transport silent_engine
                           false (filled_form true)
          = failure_trace silent_engine (filled_form true) e
       /\ error_shown (comparing silent_engine e)
            (compareResponses example_engine refusing_transport
                              silent_engine false (filled_form true))
       /\ display_after (lit "loading")
            (compareResponses example_engine refusing_transport
                              silent_engine false (filled_form true))
          = Some (lit "none").
Proof.
  split; [reflexivity|].
  exact (@compare_rejected example_engine refusing_transport silent_engine
           false (filled_form true) eq_refl
           (or_introl (ex_intro _ (Error (lit "Failed to fetch")) eq_refl))).
Defined.

Lemma compare_http_error_witness :
  half_failing_transport
    (request_of (lit "https://a.example/v1") (lit "k1") (lit "m1")
                (lit "hello"))
  = (30%float, Ok server_error)
  /\ second_call example_engine half_failing_transport (filled_form true)
     = Ok (example_record 40)
  /\ error_shown
       (lit "Error comparing responses: HTTP 500: Internal Server Error")
       (compareResponses example_engine half_failing_transport
                         silent_engine false (filled_form true)).
Proof.
  split; [reflexivity|]. split; [reflexivity|].
  exact (proj2 (@compare_http_error example_engine half_failing_transport
                  silent_engine false (filled_form true) 30%float
                  server_error (example_record 40)
                  eq_refl eq_refl eq_refl eq_refl)).
Defined.

Lemma compare_shows_plain_witness :
  first_call example_engine
             (constant_transport 120 (ok_response openai_example))
             (filled_form false)
  = Ok (example_record 120)
  /\ panel_after (lit "response1")
       (compareResponses example_engine
          (constant_transport 120 (ok_response openai_example))
          silent_engine false (filled_form false))
     = Some (PlainText (lit "hi")).
Proof.
  split; [reflexivity|].
  exact (proj1 (proj2 (proj2
    (@compare_shows_plain example_engine
       (constant_transport 120 (ok_response openai_example))
       silent_engine false (filled_form false)
       (example_record 120) (example_record 120)
       (markup_of (metrics_markup example_engine (lit "m1")
                     (example_record 120)))
       (markup_of (metrics_markup example_engine (lit "m2")
                     (example_record 120)))
       (lit "hi") (lit "hi")
       eq_refl eq_refl eq_refl eq_refl eq_refl eq_refl eq_refl eq_refl)))).
Defined.

Lemma compare_shows_highlighted_witness :
  first_call example_engine
             (constant_transport 120 (ok_response openai_example))
             (filled_form true)
  = Ok (example_record 120)
  /\ panel_after (lit "response1")
       (compareResponses example_engine
          (constant_transport 120 (ok_response openai_example))
          silent_engine false (filled_form true))
     = Some (Html (lit "hi")).
Proof.
  split; [reflexivity|].
  exact (proj1 (proj2 (proj2
    (@compare_shows_highlighted example_engine
       (constant_transport 120 (ok_response openai_example))
       silent_engine false (filled_form true)
       (example_record 120) (example_record 120)
       (markup_of (metrics_markup example_engine (lit "m1")
                     (example_record 120)))
       (markup_of (metrics_markup example_engine (lit "m2")
                     (example_record 120)))
       (lit "hi") (lit "hi")
       eq_refl eq_refl eq_refl eq_refl eq_refl eq_refl eq_refl eq_refl)))).
Defined.

Lemma compare_highlight_needs_strings_witness :
  first_call example_engine
             (constant_transport 120 (ok_response openai_null_content))
             (filled_form true)
  = Ok (null_content_record 120)
  /\ error_shown (comparing silent_engine TypeError)
       (compareResponses example_engine
          (constant_transport 120 (ok_response openai_null_content))
          silent_engine false (filled_form true)).
Proof.
  split; [reflexivity|].
  exact (proj1 (proj2
    (@compare_highlight_needs_strings example_engine
       (constant_transport 120 (ok_response openai_null_content))
       silent_engine false (filled_form true)
       (null_content_record 120) (null_content_record 120)
       (markup_of (metrics_markup example_engine (lit "m1")
                     (null_content_record 120)))
       (markup_of (metrics_markup example_engine (lit "m2")
                     (null_content_record 120)))
       eq_refl eq_refl eq_refl eq_refl eq_refl eq_refl eq_refl))).
Defined.

Lemma compare_unprintable_count_witness :
  first_call example_engine
             (constant_transport 120 (ok_response openai_unprintable_count))
             (filled_form false)
  = Ok (unprintable_record 120)
  /\ compareResponses example_engine
       (constant_transport 120 (ok_response openai_unprintable_count))
       silent_engine false (filled_form false)
     = failure_trace silent_engine (filled_form false) TypeError.
Proof.
  split; [reflexivity|].
  exact (proj1 (proj2
    (@compare_unprintable_count example_engine
       (constant_transport 120 (ok_response openai_unprintable_count))
       silent_engine false (filled_form false)
       (unprintable_record 120) (unprintable_record 120) TypeError
       eq_refl eq_refl eq_refl eq_refl))).
Defined.
